(** * elk_logger: the Ansible callback plugin that ships run events to Elasticsearch

    A shallow embedding of [callback_plugins/elk_logger.py] and the
    properties of its event-to-document pipeline: the result sanitizer
    ([_clean_result]), the document builders (the [v2_*] hooks) and the
    sink client ([_send_to_elasticsearch]). *)

From Stdlib Require Import ZArith String Ascii List Lia.
From Stdlib Require Import DecimalString.
From stdpp Require Import base tactics list strings gmap sorting.

Set Warnings "-register-all".
Local Open Scope string_scope.
Local Open Scope list_scope.

(** ** Python values

    The values that travel through the plugin are the JSON-shaped ones
    Ansible hands to a callback: [None], booleans, integers, floats,
    strings, lists and dictionaries with string keys. A Python [str] is
    modelled by [string], one character per code point; a [dict] by its
    items in insertion order, which is the order Python iterates and
    serialises them in. *)

Module Py.

Inductive pyvalue : Type :=
  | VNone
  | VBool (b : bool)
  | VInt (n : Z)
  | VFloat (num den : Z)        (* the float that [num / den] evaluates to *)
  | VStr (s : string)
  | VList (l : list pyvalue)
  | VDict (d : list (string * pyvalue)).

Abbreviation pydict := (list (string * pyvalue)).

Section Dict.
Context {V : Type}.

(** [d.get(k)], with [None] for a missing key. *)
Fixpoint dict_get (d : list (string * V)) (k : string) : option V :=
  match d with
  | [] => None
  | (k', v) :: d' => if decide (k = k') then Some v else dict_get d' k
  end.

(** [d[k] = v]: an existing key keeps its position, a new key goes last. *)
Fixpoint dict_set (d : list (string * V)) (k : string) (v : V)
  : list (string * V) :=
  match d with
  | [] => [(k, v)]
  | (k', v') :: d' =>
      if decide (k = k') then (k, v) :: d' else (k', v') :: dict_set d' k v
  end.

(** [list(d.keys())] *)
Definition dict_keys (d : list (string * V)) : list string := d.*1.

(** [d.get(k, default)] *)
Definition dict_get_default (d : list (string * V)) (k : string) (dflt : V) : V :=
  default dflt (dict_get d k).
End Dict.

(** [s[:n]] on a string and [l[:n]] on a list. *)
Definition str_slice_to (n : nat) (s : string) : string := substring 0 n s.
Definition list_slice_to {A} (n : nat) (l : list A) : list A := take n l.

(** [str(n)] for an integer. *)
Definition str_of_int (n : Z) : string := NilZero.string_of_int (Z.to_int n).
Arguments str_of_int : simpl never.

End Py.
Import Py.

(** ** Exceptions, effects and the computation monad

    A hook of the plugin reads attributes of [self], talks to the display
    and to the HTTP library, and either returns or raises. A computation is
    the trace of effects it performed together with its outcome. *)

(** The exception classes that can occur, with the part of the class
    hierarchy of Python and of [requests.exceptions] they belong to. *)
Inductive exn_class : Type :=
  | BaseException | Exception | AttributeError | TypeError | KeyError
  | ValueError | OSError | RuntimeError | RecursionError
  | RequestException | HTTPError | ConnectionError | ProxyError | SSLError
  | Timeout | ConnectTimeout | ReadTimeout | TooManyRedirects | InvalidURL
  | ChunkedEncodingError.

#[export] Instance exn_class_eq_dec : EqDecision exn_class.
Proof. solve_decision. Defined.

(** Direct base classes. *)
Definition exn_bases (c : exn_class) : list exn_class :=
  match c with
  | BaseException => []
  | Exception => [BaseException]
  | AttributeError | TypeError | ValueError | OSError => [Exception]
  | KeyError | RuntimeError => [Exception]
  | RecursionError => [RuntimeError]
  | RequestException => [OSError]
  | HTTPError | ConnectionError | Timeout | TooManyRedirects
  | ChunkedEncodingError => [RequestException]
  | ProxyError | SSLError => [ConnectionError]
  | ConnectTimeout => [ConnectionError; Timeout]
  | ReadTimeout => [Timeout]
  | InvalidURL => [RequestException; ValueError]
  end.

(** [issubclass(c, target)]; the hierarchy above is five levels deep. *)
Fixpoint issubclass_depth (depth : nat) (c target : exn_class) : bool :=
  bool_decide (c = target) ||
  match depth with
  | O => false
  | S depth' => existsb (fun b => issubclass_depth depth' b target) (exn_bases c)
  end.

Definition issubclass : exn_class -> exn_class -> bool := issubclass_depth 5.

(** A raised exception: its class and [str(e)]. *)
Record exn : Type := Exn { exn_type : exn_class; exn_str : string }.

Definition isinstance (e : exn) (c : exn_class) : bool := issubclass (exn_type e) c.
Arguments isinstance : simpl never.

(** The JSON text of a value, kept symbolic: what [json.dumps(obj)] returns
    when it returns. *)
Inductive json_text : Type := JsonText (obj : pyvalue).

(** The arguments of one [requests.post] call. *)
Record http_request : Type := {
  req_url : string;
  req_data : json_text;
  req_headers : list (string * string);
  req_timeout : Z
}.

Inductive effect : Type :=
  | HttpPost (r : http_request)       (* one call requests.post(...) *)
  | DisplayWarning (msg : string)     (* self._display.warning(msg) *)
  | DisplayError (msg : string)       (* self._display.error(msg) *)
  | DisplayMessage (msg : string).    (* self._display.display(msg) *)

Inductive outcome (A : Type) : Type :=
  | Return (a : A)
  | Raise (e : exn).
Arguments Return {A} a.
Arguments Raise {A} e.

Definition io (A : Type) : Type := (list effect * outcome A)%type.

#[export] Instance io_ret : MRet io := fun A a => ([], Return a).

#[export] Instance io_bind : MBind io := fun A B f m =>
  match m with
  | (t, Return a) => let '(t', r) := f a in (t ++ t', r)
  | (t, Raise e) => (t, Raise e)
  end.

Definition perform (e : effect) : io unit := ([e], Return tt).

Definition raise {A} (e : exn) : io A := ([], Raise e).

(** [try: body / except cls as e: handler(e)] *)
Definition try_except {A} (body : io A) (cls : exn_class) (handler : exn -> io A)
  : io A :=
  match body with
  | (t, Return a) => (t, Return a)
  | (t, Raise e) =>
      if isinstance e cls then let '(t', r) := handler e in (t ++ t', r)
      else (t, Raise e)
  end.

(** What one delivery attempt, [requests.post(url, data=json.dumps(...), ...)],
    meets. Either [json.dumps] rejects the document and raises (an integer
    beyond the digit limit of the runtime is a [ValueError], nesting beyond
    its recursion limit a [RecursionError], a value of no JSON type a
    [TypeError]) and the call is never made; or the call is made and
    returns a response with a status code; or the call is made and raises.
    The limits belong to the runtime, so whether [json.dumps] raises is
    taken from the environment like the answer of the remote end. *)
Inductive post_outcome : Type :=
  | Responds (status_code : Z)
  | Fails (e : exn)
  | DumpsRaises (e : exn).

(** [json.dumps(obj)] *)
Definition json_dumps (remote : post_outcome) (obj : pyvalue) : io json_text :=
  match remote with
  | DumpsRaises e => raise e
  | Responds _ | Fails _ => mret (JsonText obj)
  end.

(** One call [requests.post(url, data=data, headers=headers,
    timeout=timeout)], recorded with its arguments. What the library puts
    on the wire during the call (it follows redirects, [allow_redirects]
    being left at its default) is its own business and not part of the
    trace; the status code is that of the response the call returns. The
    call is not reached when [json.dumps] has raised. *)
Definition requests_post (remote : post_outcome) (url : string) (data : json_text)
  (headers : list (string * string)) (timeout : Z) : io Z :=
  _ ← perform (HttpPost {| req_url := url; req_data := data;
                           req_headers := headers; req_timeout := timeout |});
  match remote with
  | Responds status_code => mret status_code
  | Fails e | DumpsRaises e => raise e
  end.

(** The call was made and came back with a response or with a failure that
    [requests] reports, an instance of
    [requests.exceptions.RequestException]. *)
Definition transport_level (remote : post_outcome) : bool :=
  match remote with
  | Responds _ => true
  | Fails e => isinstance e RequestException
  | DumpsRaises _ => false
  end.

(** The warnings a trace shows on the operator's display. *)
Definition warnings (t : list effect) : list string :=
  omap (fun e => match e with DisplayWarning msg => Some msg | _ => None end) t.

(** The calls to [requests.post] in a trace, each with its arguments. *)
Definition posts (t : list effect) : list http_request :=
  omap (fun e => match e with HttpPost r => Some r | _ => None end) t.

(** ** The objects the hooks receive *)

(** A [datetime] as the plugin observes it: what [isoformat()] and
    [strftime('%Y%m%d%H%M%S')] return, and the instant it denotes, counted
    in microseconds, which is what subtraction works on. *)
Record datetime : Type := {
  isoformat : string;
  strftime_YmdHMS : string;
  instant_us : Z
}.

Record timedelta : Type := { delta_us : Z }.

(** [td.total_seconds()] *)
Definition total_seconds (td : timedelta) : pyvalue := VFloat (delta_us td) 1000000.

(** [end - start]; [start] may be [None], on which subtraction is a
    [TypeError]. *)
Definition datetime_sub (end_time : datetime) (start : option datetime) : io timedelta :=
  match start with
  | Some start_time =>
      mret {| delta_us := instant_us end_time - instant_us start_time |}
  | None =>
      raise (Exn TypeError
        "unsupported operand type(s) for -: 'datetime.datetime' and 'NoneType'")
  end.

(** [d.isoformat()] on an attribute that may hold [None]. *)
Definition call_isoformat (d : option datetime) : io string :=
  match d with
  | Some d => mret (isoformat d)
  | None => raise (Exn AttributeError "'NoneType' object has no attribute 'isoformat'")
  end.

(** Ansible's [TaskResult]: [_host.get_name()], [_task.get_name()] and the
    raw result mapping [_result]. *)
Record TaskResult : Type := {
  _host : string;
  _task : string;
  _result : pydict
}.

(** Ansible's [AggregateStats]: the hosts seen and the counters per host. *)
Record AggregateStats : Type := {
  processed : gmap string Z;
  ok : gmap string Z;
  failures : gmap string Z;
  dark : gmap string Z;
  changed : gmap string Z;
  skipped : gmap string Z;
  rescued : gmap string Z;
  ignored : gmap string Z
}.

(** What [stats.summarize(host)] returns, one entry per key. *)
Record host_summary : Type := {
  s_ok : Z; s_failures : Z; s_unreachable : Z; s_changed : Z;
  s_skipped : Z; s_rescued : Z; s_ignored : Z
}.

(** [AggregateStats.summarize]: each counter is [counter.get(host, 0)]. *)
Definition summarize (stats : AggregateStats) (host : string) : host_summary :=
  {| s_ok := default 0%Z (ok stats !! host);
     s_failures := default 0%Z (failures stats !! host);
     s_unreachable := default 0%Z (dark stats !! host);
     s_changed := default 0%Z (changed stats !! host);
     s_skipped := default 0%Z (skipped stats !! host);
     s_rescued := default 0%Z (rescued stats !! host);
     s_ignored := default 0%Z (ignored stats !! host) |}.

(** [sorted(l)] on a list of strings: Python compares [str] values
    lexicographically by code point, which is [String.le]. *)
Definition sorted (l : list string) : list string := merge_sort String.le l.
Arguments sorted : simpl never.

(** The strict order [s1 < s2] on [str]. *)
Definition str_lt (s1 s2 : string) : Prop := String.ltb s1 s2 = true.

(** ** The plugin instance *)

(** An instance attribute is either not assigned yet or holds a value. *)
Inductive attr (A : Type) : Type :=
  | Unset
  | Attr (a : A).
Arguments Unset {A}.
Arguments Attr {A} a.

(** [self.name]: reading an attribute that was never assigned raises. *)
Definition getattr {A} (name : string) (a : attr A) : io A :=
  match a with
  | Attr x => mret x
  | Unset =>
      raise (Exn AttributeError
        ("'CallbackModule' object has no attribute '" +:+ name +:+ "'"))
  end.

Record CallbackModule : Type := {
  disabled : bool;
  playbook_name : attr (option string);
  playbook_id : attr (option string);
  start_time : attr (option datetime);
  hostname : attr string;
  es_host : attr string;
  es_index : attr string;
  log_task_results : attr bool
}.

(** A string attribute that may hold [None], as a document value. *)
Definition value_of (o : option string) : pyvalue :=
  match o with
  | Some s => VStr s
  | None => VNone
  end.

(** The configuration [set_options] reads with [get_option]. *)
Record options : Type := {
  elasticsearch_host : string;
  elasticsearch_index : string;
  opt_log_task_results : bool
}.

Definition default_options : options :=
  {| elasticsearch_host := "http://localhost:9200";
     elasticsearch_index := "ansible-logs";
     opt_log_task_results := true |}.

(** The instance as [CallbackBase.__init__] leaves it. *)
Definition CallbackBase_init : CallbackModule :=
  {| disabled := false;
     playbook_name := Unset; playbook_id := Unset; start_time := Unset;
     hostname := Unset; es_host := Unset; es_index := Unset;
     log_task_results := Unset |}.

(** [CallbackModule.__init__]; [HAS_REQUESTS] is the module flag and
    [gethostname] what [socket.gethostname()] returns. *)
Definition __init__ (HAS_REQUESTS : bool) (gethostname : string) : io CallbackModule :=
  let self := CallbackBase_init in
  if negb HAS_REQUESTS then
    _ ← perform (DisplayWarning "requests library is required for elasticsearch callback");
    mret {| disabled := true;
            playbook_name := playbook_name self; playbook_id := playbook_id self;
            start_time := start_time self; hostname := hostname self;
            es_host := es_host self; es_index := es_index self;
            log_task_results := log_task_results self |}
  else
    mret {| disabled := disabled self;
            playbook_name := Attr None; playbook_id := Attr None;
            start_time := Attr None; hostname := Attr gethostname;
            es_host := es_host self; es_index := es_index self;
            log_task_results := log_task_results self |}.

Definition set_options (self : CallbackModule) (opts : options) : CallbackModule :=
  {| disabled := disabled self;
     playbook_name := playbook_name self; playbook_id := playbook_id self;
     start_time := start_time self; hostname := hostname self;
     es_host := Attr (elasticsearch_host opts);
     es_index := Attr (elasticsearch_index opts);
     log_task_results := Attr (opt_log_task_results opts) |}.

(** ** The result sanitizer: [_clean_result] *)

Definition safe_keys : list string :=
  ["stdout"; "stderr"; "msg"; "changed"; "rc"; "stdout_lines"].

Definition max_str_len : nat := 5000.
Definition max_list_len : nat := 50.
Definition truncated : string := "... (truncated)".

(** The value stored under a key: the three branches of the loop body. *)
Definition clean_value (value : pyvalue) : pyvalue :=
  match value with
  | VStr s =>
      if (max_str_len <? String.length s)%nat
      then VStr (str_slice_to max_str_len s +:+ truncated)
      else value
  | VList l =>
      if (max_list_len <? length l)%nat
      then VList (list_slice_to max_list_len l ++ [VStr truncated])
      else value
  | _ => value
  end.

(** One iteration of [for key in safe_keys]. *)
Definition clean_key (result clean : pydict) (key : string) : pydict :=
  match dict_get result key with        (* if key in result: value = result[key] *)
  | Some value => dict_set clean key (clean_value value)
  | None => clean
  end.

Definition _clean_result (result : pydict) : pydict :=
  foldl (clean_key result) [] safe_keys.
Arguments _clean_result : simpl never.

(** ** The sink client: [_send_to_elasticsearch] *)

Definition _send_to_elasticsearch (self : CallbackModule) (log_entry : pydict)
  (remote : post_outcome) : io unit :=
  if disabled self then mret tt
  else
    try_except
      (es_host ← getattr "es_host" (es_host self);
       es_index ← getattr "es_index" (es_index self);
       let url := es_host +:+ "/" +:+ es_index +:+ "/_doc" in
       let headers := [("Content-Type", "application/json")] in
       data ← json_dumps remote (VDict log_entry);
       status_code ← requests_post remote url data headers 5;
       if negb (bool_decide (status_code ∈ [200; 201]%Z))
       then perform (DisplayWarning
              ("[Elasticsearch] Failed to send log: HTTP " +:+ str_of_int status_code))
       else mret tt)
      RequestException
      (fun e => perform (DisplayWarning ("[Elasticsearch] Error: " +:+ exn_str e))).

(** ** The hooks

    Each hook builds its document ([*_log_entry], the dictionary literal of
    the source with its attribute reads in evaluation order) and hands it
    to the sink client. [utcnow] is what [datetime.utcnow()] returns in the
    call and [remote] what the remote end does with the request. *)

(** [v2_playbook_on_start] assigns attributes of [self] as it goes, so the
    call is described by the instance it leaves behind, whether it returns
    or raises, together with what it did: the file name and the start time
    are assigned before [self.hostname] is read, the run identifier only
    after. *)
Definition run_v2_playbook_on_start (self : CallbackModule) (_file_name : string)
  (utcnow : datetime) (remote : post_outcome) : CallbackModule * io unit :=
  let self :=
    {| disabled := disabled self;
       playbook_name := Attr (Some _file_name);
       playbook_id := playbook_id self;
       start_time := Attr (Some utcnow);
       hostname := hostname self; es_host := es_host self;
       es_index := es_index self; log_task_results := log_task_results self |} in
  match hostname self with
  | Unset =>
      (self, raise (Exn AttributeError
                      "'CallbackModule' object has no attribute 'hostname'"))
  | Attr hostname_ =>
      let self :=
        {| disabled := disabled self;
           playbook_name := playbook_name self;
           playbook_id := Attr (Some (hostname_ +:+ "-" +:+ strftime_YmdHMS utcnow));
           start_time := start_time self;
           hostname := hostname self; es_host := es_host self;
           es_index := es_index self; log_task_results := log_task_results self |} in
      let log_entry :=
        [("@timestamp", VStr (isoformat utcnow +:+ "Z"));
         ("event_type", VStr "playbook_start");
         ("playbook_id", VStr (hostname_ +:+ "-" +:+ strftime_YmdHMS utcnow));
         ("playbook", VStr _file_name);
         ("hostname", VStr hostname_);
         ("status", VStr "started")] in
      (self,
       _ ← _send_to_elasticsearch self log_entry remote;
       perform (DisplayMessage ("[Elasticsearch] Playbook started: " +:+ _file_name)))
  end.

(** The hook as a computation: what it did, and on return the instance. *)
Definition v2_playbook_on_start (self : CallbackModule) (_file_name : string)
  (utcnow : datetime) (remote : post_outcome) : io CallbackModule :=
  let '(self, run) := run_v2_playbook_on_start self _file_name utcnow remote in
  _ ← run;
  mret self.

Definition v2_playbook_on_play_start_log_entry (self : CallbackModule)
  (play_name : string) (utcnow : datetime) : io pydict :=
  playbook_id_ ← getattr "playbook_id" (playbook_id self);
  playbook_name_ ← getattr "playbook_name" (playbook_name self);
  hostname_ ← getattr "hostname" (hostname self);
  mret [("@timestamp", VStr (isoformat utcnow +:+ "Z"));
        ("event_type", VStr "play_start");
        ("playbook_id", value_of playbook_id_);
        ("playbook", value_of playbook_name_);
        ("play", VStr play_name);
        ("hostname", VStr hostname_)].

Definition v2_playbook_on_play_start (self : CallbackModule) (play_name : string)
  (utcnow : datetime) (remote : post_outcome) : io unit :=
  log_entry ← v2_playbook_on_play_start_log_entry self play_name utcnow;
  _send_to_elasticsearch self log_entry remote.

Definition v2_playbook_on_task_start_log_entry (self : CallbackModule)
  (task_name : string) (utcnow : datetime) : io pydict :=
  playbook_id_ ← getattr "playbook_id" (playbook_id self);
  playbook_name_ ← getattr "playbook_name" (playbook_name self);
  hostname_ ← getattr "hostname" (hostname self);
  mret [("@timestamp", VStr (isoformat utcnow +:+ "Z"));
        ("event_type", VStr "task_start");
        ("playbook_id", value_of playbook_id_);
        ("playbook", value_of playbook_name_);
        ("task", VStr task_name);
        ("hostname", VStr hostname_)].

Definition v2_playbook_on_task_start (self : CallbackModule) (task_name : string)
  (is_conditional : bool) (utcnow : datetime) (remote : post_outcome) : io unit :=
  log_entry ← v2_playbook_on_task_start_log_entry self task_name utcnow;
  _send_to_elasticsearch self log_entry remote.

Definition v2_runner_on_ok_log_entry (self : CallbackModule) (result : TaskResult)
  (utcnow : datetime) : io pydict :=
  playbook_id_ ← getattr "playbook_id" (playbook_id self);
  playbook_name_ ← getattr "playbook_name" (playbook_name self);
  hostname_ ← getattr "hostname" (hostname self);
  let log_entry :=
    [("@timestamp", VStr (isoformat utcnow +:+ "Z"));
     ("event_type", VStr "task_ok");
     ("playbook_id", value_of playbook_id_);
     ("playbook", value_of playbook_name_);
     ("host", VStr (_host result));
     ("task", VStr (_task result));
     ("status", VStr "success");
     ("changed", dict_get_default (_result result) "changed" (VBool false));
     ("hostname", VStr hostname_)] in
  log_task_results_ ← getattr "log_task_results" (log_task_results self);
  if log_task_results_ : bool
  then mret (dict_set log_entry "result" (VDict (_clean_result (_result result))))
  else mret log_entry.

Definition v2_runner_on_ok (self : CallbackModule) (result : TaskResult)
  (utcnow : datetime) (remote : post_outcome) : io unit :=
  log_entry ← v2_runner_on_ok_log_entry self result utcnow;
  _send_to_elasticsearch self log_entry remote.

Definition v2_runner_on_failed_log_entry (self : CallbackModule) (result : TaskResult)
  (ignore_errors : bool) (utcnow : datetime) : io pydict :=
  playbook_id_ ← getattr "playbook_id" (playbook_id self);
  playbook_name_ ← getattr "playbook_name" (playbook_name self);
  hostname_ ← getattr "hostname" (hostname self);
  let log_entry :=
    [("@timestamp", VStr (isoformat utcnow +:+ "Z"));
     ("event_type", VStr "task_failed");
     ("playbook_id", value_of playbook_id_);
     ("playbook", value_of playbook_name_);
     ("host", VStr (_host result));
     ("task", VStr (_task result));
     ("status", VStr "failed");
     ("ignore_errors", VBool ignore_errors);
     ("hostname", VStr hostname_);
     ("error_message", dict_get_default (_result result) "msg" (VStr "Unknown error"))] in
  log_task_results_ ← getattr "log_task_results" (log_task_results self);
  if log_task_results_ : bool
  then mret (dict_set log_entry "result" (VDict (_clean_result (_result result))))
  else mret log_entry.

Definition v2_runner_on_failed (self : CallbackModule) (result : TaskResult)
  (ignore_errors : bool) (utcnow : datetime) (remote : post_outcome) : io unit :=
  log_entry ← v2_runner_on_failed_log_entry self result ignore_errors utcnow;
  _ ← _send_to_elasticsearch self log_entry remote;
  perform (DisplayWarning ("[Elasticsearch] Task failed: " +:+ _task result)).

Definition v2_runner_on_skipped_log_entry (self : CallbackModule) (result : TaskResult)
  (utcnow : datetime) : io pydict :=
  playbook_id_ ← getattr "playbook_id" (playbook_id self);
  playbook_name_ ← getattr "playbook_name" (playbook_name self);
  hostname_ ← getattr "hostname" (hostname self);
  mret [("@timestamp", VStr (isoformat utcnow +:+ "Z"));
        ("event_type", VStr "task_skipped");
        ("playbook_id", value_of playbook_id_);
        ("playbook", value_of playbook_name_);
        ("host", VStr (_host result));
        ("task", VStr (_task result));
        ("status", VStr "skipped");
        ("hostname", VStr hostname_)].

Definition v2_runner_on_skipped (self : CallbackModule) (result : TaskResult)
  (utcnow : datetime) (remote : post_outcome) : io unit :=
  log_entry ← v2_runner_on_skipped_log_entry self result utcnow;
  _send_to_elasticsearch self log_entry remote.

Definition v2_runner_on_unreachable_log_entry (self : CallbackModule)
  (result : TaskResult) (utcnow : datetime) : io pydict :=
  playbook_id_ ← getattr "playbook_id" (playbook_id self);
  playbook_name_ ← getattr "playbook_name" (playbook_name self);
  hostname_ ← getattr "hostname" (hostname self);
  mret [("@timestamp", VStr (isoformat utcnow +:+ "Z"));
        ("event_type", VStr "host_unreachable");
        ("playbook_id", value_of playbook_id_);
        ("playbook", value_of playbook_name_);
        ("host", VStr (_host result));
        ("task", VStr (_task result));
        ("status", VStr "unreachable");
        ("hostname", VStr hostname_);
        ("error_message", dict_get_default (_result result) "msg" (VStr "Host unreachable"))].

Definition v2_runner_on_unreachable (self : CallbackModule) (result : TaskResult)
  (utcnow : datetime) (remote : post_outcome) : io unit :=
  log_entry ← v2_runner_on_unreachable_log_entry self result utcnow;
  _ ← _send_to_elasticsearch self log_entry remote;
  perform (DisplayError ("[Elasticsearch] Host unreachable: " +:+ _host result)).

(** The [summary] mapping: the [for h in hosts] loop. *)
Definition summary_entry (stats : AggregateStats) (summary : pydict) (h : string)
  : pydict :=
  let s := summarize stats h in
  dict_set summary h
    (VDict [("ok", VInt (s_ok s));
            ("changed", VInt (s_changed s));
            ("unreachable", VInt (s_unreachable s));
            ("failures", VInt (s_failures s));
            ("skipped", VInt (s_skipped s));
            ("rescued", VInt (s_rescued s));
            ("ignored", VInt (s_ignored s))]).

Definition v2_playbook_on_stats_log_entry (self : CallbackModule)
  (stats : AggregateStats) (end_time : datetime) : io (pydict * timedelta) :=
  start_time_ ← getattr "start_time" (start_time self);
  runtime ← datetime_sub end_time start_time_;
  let hosts := sorted (elements (dom (processed stats))) in
  let summary := foldl (summary_entry stats) [] hosts in
  playbook_id_ ← getattr "playbook_id" (playbook_id self);
  playbook_name_ ← getattr "playbook_name" (playbook_name self);
  start_iso ← call_isoformat start_time_;
  hostname_ ← getattr "hostname" (hostname self);
  mret ([("@timestamp", VStr (isoformat end_time +:+ "Z"));
         ("event_type", VStr "playbook_stats");
         ("playbook_id", value_of playbook_id_);
         ("playbook", value_of playbook_name_);
         ("status", VStr "completed");
         ("start_time", VStr (start_iso +:+ "Z"));
         ("end_time", VStr (isoformat end_time +:+ "Z"));
         ("duration_seconds", total_seconds runtime);
         ("hostname", VStr hostname_);
         ("summary", VDict summary)], runtime).

Section Stats.
(** [format(x, '.2f')] of the float [num / den], a function of the Python
    runtime. *)
Variable format_2f : Z -> Z -> string.

Definition v2_playbook_on_stats (self : CallbackModule) (stats : AggregateStats)
  (end_time : datetime) (remote : post_outcome) : io unit :=
  '(log_entry, runtime) ← v2_playbook_on_stats_log_entry self stats end_time;
  _ ← _send_to_elasticsearch self log_entry remote;
  perform (DisplayMessage
    ("[Elasticsearch] Playbook completed in "
       +:+ format_2f (delta_us runtime) 1000000 +:+ "s")).
End Stats.

(** What Ansible's plugin loader does with the class: instantiate it, then
    hand it its configuration. *)
Definition load (HAS_REQUESTS : bool) (gethostname : string) (opts : options)
  : io CallbackModule :=
  self ← __init__ HAS_REQUESTS gethostname;
  mret (set_options self opts).

(** ** Notions used by the properties *)

Definition is_assigned {A} (a : attr A) : bool :=
  match a with
  | Attr _ => true
  | Unset => false
  end.

(** Every attribute the hooks read has been assigned: the instance went
    through [__init__] with [requests] available and through
    [set_options]. *)
Definition loaded (self : CallbackModule) : bool :=
  is_assigned (playbook_name self) && is_assigned (playbook_id self)
  && is_assigned (start_time self) && is_assigned (hostname self)
  && is_assigned (es_host self) && is_assigned (es_index self)
  && is_assigned (log_task_results self).

(** The run context still holds the [None]s of [__init__]: no
    [v2_playbook_on_start] yet. *)
Definition before_start (self : CallbackModule) : Prop :=
  playbook_name self = Attr None /\ playbook_id self = Attr None
  /\ start_time self = Attr None.

(** The run context as [v2_playbook_on_start] leaves it. *)
Definition started (self : CallbackModule) : Prop :=
  (exists name, playbook_name self = Attr (Some name))
  /\ (exists id, playbook_id self = Attr (Some id))
  /\ (exists t, start_time self = Attr (Some t)).

(** The instance [load True gethostname opts] returns. *)
Definition loaded_instance (gethostname : string) (opts : options) : CallbackModule :=
  {| disabled := false;
     playbook_name := Attr None; playbook_id := Attr None; start_time := Attr None;
     hostname := Attr gethostname;
     es_host := Attr (elasticsearch_host opts);
     es_index := Attr (elasticsearch_index opts);
     log_task_results := Attr (opt_log_task_results opts) |}.

(** The instance [__init__] returns when [requests] is missing. *)
Definition disabled_instance : CallbackModule :=
  {| disabled := true;
     playbook_name := Unset; playbook_id := Unset; start_time := Unset;
     hostname := Unset; es_host := Unset; es_index := Unset;
     log_task_results := Unset |}.

(** The effects a failed delivery may show: the request and warnings. *)
Definition post_or_warning (e : effect) : Prop :=
  match e with
  | HttpPost _ | DisplayWarning _ => True
  | DisplayError _ | DisplayMessage _ => False
  end.

(** The arguments of the [requests.post] call the sink client makes for a
    document. *)
Definition doc_request (host index : string) (log_entry : pydict) : http_request :=
  {| req_url := host +:+ "/" +:+ index +:+ "/_doc";
     req_data := JsonText (VDict log_entry);
     req_headers := [("Content-Type", "application/json")];
     req_timeout := 5 |}.

(** A builder returns a document with property [P], without any effect. *)
Definition builds (m : io pydict) (P : pydict -> Prop) : Prop :=
  exists log_entry, m = ([], Return log_entry) /\ P log_entry.

(** The run identity of a document is null. *)
Definition null_run_fields (log_entry : pydict) : Prop :=
  dict_get log_entry "playbook_id" = Some VNone
  /\ dict_get log_entry "playbook" = Some VNone.

(** The entry of a host in the [summary] mapping. *)
Definition host_counts (stats : AggregateStats) (h : string) : pyvalue :=
  VDict [("ok", VInt (default 0%Z (ok stats !! h)));
         ("changed", VInt (default 0%Z (changed stats !! h)));
         ("unreachable", VInt (default 0%Z (dark stats !! h)));
         ("failures", VInt (default 0%Z (failures stats !! h)));
         ("skipped", VInt (default 0%Z (skipped stats !! h)));
         ("rescued", VInt (default 0%Z (rescued stats !! h)));
         ("ignored", VInt (default 0%Z (ignored stats !! h)))].

(** A size measure on values: the characters of the strings and keys, and
    one unit per other node. The JSON text of a value is at least as long. *)
Fixpoint value_size (v : pyvalue) : nat :=
  match v with
  | VNone | VBool _ | VInt _ | VFloat _ _ => 1
  | VStr s => String.length s
  | VList l => S (list_sum (map value_size l))
  | VDict d =>
      S (list_sum (map (fun kv => match kv with
                                  | (k, v) => String.length k + value_size v
                                  end) d))
  end.

(** The bound [_clean_result] puts on a value: on its length when it is a
    string or a list, none otherwise. *)
Definition top_bounded (v : pyvalue) : Prop :=
  match v with
  | VStr s => String.length s <= 5000 + String.length truncated
  | VList l => length l <= 51
  | _ => True
  end.

(** A string of [n] copies of a character. *)
Fixpoint str_repeat (c : ascii) (n : nat) : string :=
  match n with
  | O => EmptyString
  | S n' => String c (str_repeat c n')
  end.

(** The value of an attribute, if it was assigned. *)
Definition attr_value {A} (a : attr A) : option A :=
  match a with
  | Attr x => Some x
  | Unset => None
  end.

(** The fields every document carries: the time of the event, its type and
    the run context of the instance. *)
Definition run_stamp (self : CallbackModule) (utcnow : datetime) (event_type : string)
  (log_entry : pydict) : Prop :=
  dict_get log_entry "@timestamp" = Some (VStr (isoformat utcnow +:+ "Z"))
  /\ dict_get log_entry "event_type" = Some (VStr event_type)
  /\ dict_get log_entry "playbook_id" = value_of <$> attr_value (playbook_id self)
  /\ dict_get log_entry "playbook" = value_of <$> attr_value (playbook_name self)
  /\ dict_get log_entry "hostname" = VStr <$> attr_value (hostname self).

(** The run identifier: the host name, a dash and the start time. *)
Definition run_id (hostname_ : string) (start : datetime) : string :=
  hostname_ +:+ "-" +:+ strftime_YmdHMS start.

(** The instance once a run was opened on it at [start]. *)
Definition opened_run (self : CallbackModule) (hostname_ _file_name : string)
  (start : datetime) : CallbackModule :=
  {| disabled := disabled self;
     playbook_name := Attr (Some _file_name);
     playbook_id := Attr (Some (run_id hostname_ start));
     start_time := Attr (Some start);
     hostname := hostname self; es_host := es_host self;
     es_index := es_index self; log_task_results := log_task_results self |}.

(** The document that announces a run. *)
Definition playbook_start_entry (hostname_ _file_name : string) (start : datetime)
  : pydict :=
  [("@timestamp", VStr (isoformat start +:+ "Z"));
   ("event_type", VStr "playbook_start");
   ("playbook_id", VStr (run_id hostname_ start));
   ("playbook", VStr _file_name);
   ("hostname", VStr hostname_);
   ("status", VStr "started")].

(** With the digit limit of the runtime at its default of 4300
    ([sys.get_int_max_str_digits()]), [json.dumps] raises a [ValueError] on
    a value that holds an integer of more than 4300 digits. *)
Fixpoint holds_oversized_int (v : pyvalue) : bool :=
  match v with
  | VInt n => (10 ^ 4300 <=? Z.abs n)%Z
  | VList l => existsb holds_oversized_int l
  | VDict d => existsb (fun kv => match kv with (_, v) => holds_oversized_int v end) d
  | VNone | VBool _ | VFloat _ _ | VStr _ => false
  end.

(** The state of an instance created without the HTTP library: disabled,
    with neither host name nor run identifier assigned, and a start time
    that is unassigned or, once a start was attempted, set. *)
Definition requests_missing (self : CallbackModule) : Prop :=
  disabled self = true
  /\ hostname self = Unset
  /\ playbook_id self = Unset
  /\ start_time self <> Attr None.

(** ** Proof steps *)

(** Settle a decidable closed goal by evaluation. *)
Ltac by_computation := apply (bool_decide_unpack _); vm_compute; exact I.

(** Name the attributes of a loaded instance. *)
Ltac name_attributes self Hl :=
  destruct self as [dis [|pn] [|pid] [|st] [|hn] [|eh] [|ei] [|ltr]];
  try discriminate Hl; clear Hl.

(** * Properties *)

(** ** Dictionaries *)

Section DictFacts.
Context {V : Type}.
Implicit Types (d : list (string * V)) (k : string) (v : V).

Lemma dict_get_None d k : dict_get d k = None <-> k ∉ dict_keys d.
Proof.
  unfold dict_keys. induction d as [|[k' v'] d IH]; simpl.
  - split; [intros _; apply not_elem_of_nil | done].
  - rewrite not_elem_of_cons. destruct (decide (k = k')) as [Heq|Hne].
    + split; [done | by intros [? _]].
    + rewrite IH. tauto.
Qed.

Lemma dict_get_is_Some d k : is_Some (dict_get d k) <-> k ∈ dict_keys d.
Proof.
  rewrite <- not_eq_None_Some, dict_get_None.
  split; [apply dec_stable | auto].
Qed.

Lemma dict_set_fresh d k v : dict_get d k = None -> dict_set d k v = d ++ [(k, v)].
Proof.
  induction d as [|[k' v'] d IH]; simpl; [done|].
  destruct (decide (k = k')); [done|]. intros H. by rewrite IH.
Qed.

Lemma dict_get_set_eq d k v : dict_get (dict_set d k v) k = Some v.
Proof.
  induction d as [|[k' v'] d IH]; simpl.
  - by rewrite decide_True.
  - destruct (decide (k = k')) as [->|Hne]; simpl.
    + by rewrite decide_True.
    + by rewrite decide_False.
Qed.

Lemma dict_get_set_ne d k k' v :
  k <> k' -> dict_get (dict_set d k v) k' = dict_get d k'.
Proof.
  intros Hne. induction d as [|[k0 v0] d IH]; simpl.
  - by rewrite decide_False.
  - destruct (decide (k = k0)) as [->|Hne0]; simpl.
    + by rewrite !decide_False.
    + by rewrite IH.
Qed.

Lemma dict_get_elem_of d k v : dict_get d k = Some v -> (k, v) ∈ d.
Proof.
  induction d as [|[k' v'] d IH]; simpl; [done|].
  destruct (decide (k = k')) as [->|]; [intros [= ->]; left | right; auto].
Qed.

(** A dictionary built from a list of keys [ks], keeping the keys [f]
    gives a value to. *)
Lemma dict_get_omap_not_elem (f : string -> option V) (ks : list string) k :
  k ∉ ks -> dict_get (omap (fun k => pair k <$> f k) ks) k = None.
Proof.
  induction ks as [|k0 ks IH]; [done|].
  intros [Hne Hnin]%not_elem_of_cons. cbn.
  destruct (f k0) as [v|]; cbn; [rewrite decide_False by done|]; auto.
Qed.

Lemma dict_get_omap_elem (f : string -> option V) (ks : list string) k :
  k ∈ ks -> dict_get (omap (fun k => pair k <$> f k) ks) k = f k.
Proof.
  induction ks as [|k0 ks IH]; [by intros ?%elem_of_nil|].
  intros Hin. cbn. destruct (decide (k = k0)) as [->|Hne].
  - destruct (f k0) as [v|] eqn:Hf; cbn.
    + by rewrite decide_True.
    + destruct (decide (k0 ∈ ks)); [by rewrite IH|].
      by apply dict_get_omap_not_elem.
  - apply elem_of_cons in Hin as [?|Hin]; [done|].
    destruct (f k0) as [v|]; cbn; [rewrite decide_False by done|]; auto.
Qed.

Lemma dict_keys_omap (f : string -> option V) (ks : list string) :
  dict_keys (omap (fun k => pair k <$> f k) ks)
  = filter (fun k => is_Some (f k)) ks.
Proof.
  unfold dict_keys. induction ks as [|k0 ks IH]; simpl; [done|].
  destruct (f k0) as [v|] eqn:Hf; simpl.
  - rewrite filter_cons_True by (rewrite Hf; eauto). by rewrite <- IH.
  - rewrite filter_cons_False by (rewrite Hf; apply is_Some_None). done.
Qed.
End DictFacts.

(** ** Strings *)

Lemma str_length_append (s t : string) :
  String.length (s +:+ t) = String.length s + String.length t.
Proof. induction s as [|c s IH]; simpl; [done | by rewrite IH]. Qed.

Lemma str_slice_to_length (n : nat) (s : string) :
  n <= String.length s -> String.length (str_slice_to n s) = n.
Proof.
  unfold str_slice_to. revert s.
  induction n as [|n IH]; intros [|c s]; simpl; try lia; try done.
  intros H. rewrite IH; lia.
Qed.

Lemma str_slice_to_append (n : nat) (s t : string) :
  n <= String.length s -> str_slice_to n (s +:+ t) = str_slice_to n s.
Proof.
  unfold str_slice_to. revert s.
  induction n as [|n IH]; intros [|c s]; simpl; try lia;
    try (by destruct t); try done.
  intros H. rewrite IH; [done | lia].
Qed.

Lemma str_slice_to_idemp (n : nat) (s : string) :
  str_slice_to n (str_slice_to n s) = str_slice_to n s.
Proof.
  unfold str_slice_to. revert s.
  induction n as [|n IH]; intros [|c s]; simpl; try done.
  by rewrite IH.
Qed.

Lemma str_repeat_length (c : ascii) (n : nat) : String.length (str_repeat c n) = n.
Proof. induction n as [|n IH]; simpl; [done | by rewrite IH]. Qed.

(** ** The sanitizer *)

Lemma safe_keys_NoDup : NoDup safe_keys.
Proof. apply (bool_decide_unpack (NoDup safe_keys)). vm_compute. exact I. Qed.

(** The loop over a list of keys none of which is in the accumulator yet
    appends one item per key present in [result], in the order of the keys. *)
Lemma foldl_clean_key (result : pydict) (ks : list string) (clean : pydict) :
  NoDup ks -> (forall k, k ∈ ks -> dict_get clean k = None) ->
  foldl (clean_key result) clean ks
  = clean ++ omap (fun k => pair k <$> (clean_value <$> dict_get result k)) ks.
Proof.
  revert clean. induction ks as [|k ks IH]; intros clean Hnd Hfresh.
  - simpl. by rewrite app_nil_r.
  - apply NoDup_cons in Hnd as [Hk Hnd]. cbn [foldl].
    assert (Hck : dict_get clean k = None) by (apply Hfresh; left).
    unfold clean_key at 2. destruct (dict_get result k) as [v|] eqn:Hv; cbn;
      rewrite Hv; cbn.
    + rewrite IH; [|done|].
      * rewrite dict_set_fresh by done. by rewrite <- app_assoc.
      * intros k' Hk'. rewrite dict_get_set_ne by (intros ->; done).
        apply Hfresh. by right.
    + apply IH; [done|]. intros k' Hk'. apply Hfresh. by right.
Qed.

Lemma clean_result_items (result : pydict) :
  _clean_result result
  = omap (fun k => pair k <$> (clean_value <$> dict_get result k)) safe_keys.
Proof.
  unfold _clean_result. rewrite foldl_clean_key; [done | apply safe_keys_NoDup | done].
Qed.

Lemma clean_result_get (result : pydict) (key : string) :
  key ∈ safe_keys ->
  dict_get (_clean_result result) key = clean_value <$> dict_get result key.
Proof.
  intros Hin. rewrite clean_result_items.
  by apply (dict_get_omap_elem (fun k => clean_value <$> dict_get result k)).
Qed.

Lemma clean_result_keys (result : pydict) :
  dict_keys (_clean_result result)
  = filter (fun k => is_Some (dict_get result k)) safe_keys.
Proof.
  rewrite clean_result_items.
  rewrite (dict_keys_omap (fun k => clean_value <$> dict_get result k)).
  apply list_filter_iff. intros k. by rewrite fmap_is_Some.
Qed.

Lemma clean_value_long_str (s : string) :
  max_str_len < String.length s ->
  clean_value (VStr s) = VStr (str_slice_to max_str_len s +:+ truncated).
Proof.
  intros H. unfold clean_value.
  by destruct (Nat.ltb_spec max_str_len (String.length s)); [|lia].
Qed.

Lemma clean_value_long_list (l : list pyvalue) :
  max_list_len < length l ->
  clean_value (VList l) = VList (list_slice_to max_list_len l ++ [VStr truncated]).
Proof.
  intros H. unfold clean_value.
  by destruct (Nat.ltb_spec max_list_len (length l)); [|lia].
Qed.

Lemma clean_value_short_str (s : string) :
  String.length s <= max_str_len -> clean_value (VStr s) = VStr s.
Proof.
  intros H. unfold clean_value.
  by destruct (Nat.ltb_spec max_str_len (String.length s)); [lia|].
Qed.

Lemma clean_value_short_list (l : list pyvalue) :
  length l <= max_list_len -> clean_value (VList l) = VList l.
Proof.
  intros H. unfold clean_value.
  by destruct (Nat.ltb_spec max_list_len (length l)); [lia|].
Qed.

Lemma truncated_str_length (s : string) :
  max_str_len < String.length s ->
  String.length (str_slice_to max_str_len s +:+ truncated)
  = max_str_len + String.length truncated.
Proof.
  intros H. rewrite str_length_append, str_slice_to_length; [done | lia].
Qed.

Lemma truncated_list_length (l : list pyvalue) :
  max_list_len < length l ->
  length (list_slice_to max_list_len l ++ [VStr truncated]) = S max_list_len.
Proof.
  intros H. unfold list_slice_to. rewrite length_app, length_take_le by lia.
  cbn [length]. apply Nat.add_1_r.
Qed.

Lemma clean_value_idemp (v : pyvalue) : clean_value (clean_value v) = clean_value v.
Proof.
  destruct v as [| | | |s|l|d]; try done.
  - destruct (Nat.le_gt_cases (String.length s) max_str_len) as [Hle|Hgt].
    + by rewrite !clean_value_short_str.
    + rewrite (clean_value_long_str s Hgt).
      rewrite clean_value_long_str.
      * rewrite str_slice_to_append by (rewrite str_slice_to_length; lia).
        by rewrite str_slice_to_idemp.
      * rewrite truncated_str_length by done.
        change (String.length truncated) with 15. lia.
  - destruct (Nat.le_gt_cases (length l) max_list_len) as [Hle|Hgt].
    + by rewrite !clean_value_short_list.
    + rewrite (clean_value_long_list l Hgt).
      rewrite clean_value_long_list.
      * unfold list_slice_to.
        rewrite take_app_le by (rewrite length_take_le; lia).
        by rewrite take_idemp.
      * rewrite truncated_list_length by done. lia.
Qed.

Lemma clean_value_top_bounded (v : pyvalue) : top_bounded (clean_value v).
Proof.
  destruct v as [| | | |s|l|d]; try exact I.
  - destruct (Nat.le_gt_cases (String.length s) max_str_len) as [Hle|Hgt].
    + rewrite clean_value_short_str by done. unfold top_bounded.
      change 5000 with max_str_len. lia.
    + rewrite clean_value_long_str by done. unfold top_bounded.
      rewrite truncated_str_length by done. change 5000 with max_str_len. lia.
  - destruct (Nat.le_gt_cases (length l) max_list_len) as [Hle|Hgt].
    + rewrite clean_value_short_list by done. unfold top_bounded.
      change 51 with (S max_list_len). lia.
    + rewrite clean_value_long_list by done. unfold top_bounded.
      rewrite truncated_list_length by done. change 51 with (S max_list_len). lia.
Qed.

Lemma value_size_dict_get (d : pydict) (k : string) (v : pyvalue) :
  dict_get d k = Some v -> value_size v <= value_size (VDict d).
Proof.
  intros H. apply dict_get_elem_of in H. simpl.
  induction d as [|[k' v'] d IH]; [by apply elem_of_nil in H|].
  apply elem_of_cons in H as [[= <- <-]|H]; simpl; [lia|].
  specialize (IH H). lia.
Qed.

(** The sanitizer on a small result: the order is that of the allow-list,
    the key [pid] is dropped and [None] is a value like any other. *)
Example clean_result_small :
  _clean_result [("rc", VInt 0); ("pid", VInt 7); ("stdout", VStr "hello");
                 ("msg", VNone)]
  = [("stdout", VStr "hello"); ("msg", VNone); ("rc", VInt 0)].
Proof. vm_compute. reflexivity. Qed.

(** An output of 5001 characters loses its last one to the marker. *)
Example clean_result_long_stdout :
  _clean_result [("stdout", VStr (str_repeat "a" (5000 + 1)))]
  = [("stdout", VStr (str_repeat "a" 5000 +:+ "... (truncated)"))].
Proof. vm_compute. reflexivity. Qed.

(** C1. For every allow-listed key present in the raw result: a string
    longer than 5000 characters is stored as its first 5000 characters
    followed by the marker (5000 characters plus the marker in all), a
    list longer than 50 elements as its first 50 elements followed by one
    marker element (51 elements in all), and any other value is stored as
    it is. *)
Theorem clean_result_truncates (result : pydict) (key : string) (value : pyvalue) :
  key ∈ safe_keys ->
  dict_get result key = Some value ->
  (forall s, value = VStr s -> 5000 < String.length s ->
     dict_get (_clean_result result) key
       = Some (VStr (substring 0 5000 s +:+ "... (truncated)"))
     /\ String.length (substring 0 5000 s +:+ "... (truncated)")
        = 5000 + String.length "... (truncated)")
  /\ (forall l, value = VList l -> 50 < length l ->
     dict_get (_clean_result result) key
       = Some (VList (take 50 l ++ [VStr "... (truncated)"]))
     /\ length (take 50 l ++ [VStr "... (truncated)"]) = 51)
  /\ ((forall s, value = VStr s -> String.length s <= 5000) ->
      (forall l, value = VList l -> length l <= 50) ->
      dict_get (_clean_result result) key = Some value).
Proof.
  intros Hkey Hget. rewrite (clean_result_get result key Hkey), Hget. cbn [fmap option_fmap option_map].
  split; [|split].
  - intros s -> Hlen. split.
    + f_equal. by apply clean_value_long_str.
    + by apply truncated_str_length.
  - intros l -> Hlen. split.
    + f_equal. by apply clean_value_long_list.
    + by apply truncated_list_length.
  - intros Hstr Hlist. f_equal. destruct value as [| | | |s|l|d]; try done.
    + apply clean_value_short_str. by apply Hstr.
    + apply clean_value_short_list. by apply Hlist.
Qed.

Lemma clean_result_truncates_witness :
  dict_get (_clean_result [("stdout_lines", VList (replicate 51 (VStr "line")))])
    "stdout_lines"
  = Some (VList (replicate 50 (VStr "line") ++ [VStr "... (truncated)"])).
Proof.
  refine (proj1 (proj1 (proj2
    (clean_result_truncates
       [("stdout_lines", VList (replicate 51 (VStr "line")))] "stdout_lines"
       (VList (replicate 51 (VStr "line"))) _ _))
    (replicate 51 (VStr "line")) eq_refl _)).
  - by_computation.
  - reflexivity.
  - vm_compute. lia.
Defined.

(** C2. The keys of the sanitized result are exactly the allow-listed keys
    that the raw result has: nothing outside the allow-list gets in, and an
    allow-listed key the raw result lacks is left out. *)
Theorem clean_result_keys_allow_listed (result : pydict) (key : string) :
  key ∈ dict_keys (_clean_result result)
  <-> key ∈ ["stdout"; "stderr"; "msg"; "changed"; "rc"; "stdout_lines"]
      /\ is_Some (dict_get result key).
Proof.
  rewrite clean_result_keys, list_elem_of_filter. unfold safe_keys. tauto.
Qed.

(** C5, as the code has it. The sanitized result has at most six entries;
    an entry that is a string has at most 5000 characters plus the marker
    and an entry that is a list at most 51 elements. Entries of other
    types, and the elements of a list, are copied whatever their size. *)
Theorem clean_result_bounded_fields (result : pydict) :
  length (_clean_result result) <= 6
  /\ Forall (fun kv => top_bounded kv.2) (_clean_result result).
Proof.
  split.
  - rewrite <- (length_fmap fst). fold (dict_keys (_clean_result result)).
    rewrite clean_result_keys.
    exact (length_filter (fun k => is_Some (dict_get result k)) safe_keys).
  - rewrite clean_result_items. apply Forall_forall. intros [k v] Hin.
    apply list_elem_of_omap in Hin as (k0 & _ & Hk0).
    destruct (dict_get result k0) as [v0|]; [|done].
    injection Hk0 as <- <-. apply clean_value_top_bounded.
Qed.

(** C5, as stated, fails: no constant bounds the size of the sanitized
    result. A single long line in [stdout_lines] is copied whole. *)
Lemma clean_result_size_unbounded :
  ~ exists bound : nat, forall result : pydict,
      value_size (VDict (_clean_result result)) <= bound.
Proof.
  intros [bound Hbound].
  pose (line := str_repeat "x" (S bound)).
  specialize (Hbound [("stdout_lines", VList [VStr line])]).
  assert (Hget : dict_get (_clean_result [("stdout_lines", VList [VStr line])])
                   "stdout_lines" = Some (VList [VStr line])).
  { rewrite clean_result_get by by_computation.
    change (dict_get [("stdout_lines", VList [VStr line])] "stdout_lines")
      with (Some (VList [VStr line])).
    cbn [fmap option_fmap option_map]. apply (f_equal Some).
    apply clean_value_short_list. unfold max_list_len. cbn [length]. lia. }
  apply value_size_dict_get in Hget.
  assert (value_size (VList [VStr line]) = S (S bound)) as Hsize.
  { change (value_size (VList [VStr line])) with (S (String.length line + 0)).
    unfold line. rewrite str_repeat_length. lia. }
  lia.
Qed.

(** C10. Sanitizing a sanitized result changes nothing. *)
Theorem clean_result_idempotent (result : pydict) :
  _clean_result (_clean_result result) = _clean_result result.
Proof.
  etrans; [apply clean_result_items|].
  symmetry. etrans; [apply clean_result_items|]. symmetry.
  apply list_omap_ext, Forall_Forall2_diag, Forall_forall. intros k Hk.
  rewrite (clean_result_get result k Hk).
  destruct (dict_get result k) as [v|]; [|done].
  cbn [fmap option_fmap option_map]. by rewrite clean_value_idemp.
Qed.

(** ** The sink client *)

Lemma send_disabled (self : CallbackModule) (log_entry : pydict) (remote : post_outcome) :
  disabled self = true -> _send_to_elasticsearch self log_entry remote = ([], Return tt).
Proof. intros H. unfold _send_to_elasticsearch. by rewrite H. Qed.

Lemma send_responds (self : CallbackModule) (host index : string)
  (log_entry : pydict) (status_code : Z) :
  disabled self = false -> es_host self = Attr host -> es_index self = Attr index ->
  _send_to_elasticsearch self log_entry (Responds status_code)
  = (HttpPost (doc_request host index log_entry)
       :: (if bool_decide (status_code ∈ [200; 201]%Z) then []
           else [DisplayWarning ("[Elasticsearch] Failed to send log: HTTP "
                                 +:+ str_of_int status_code)]),
     Return tt).
Proof.
  intros Hd Hh Hi. unfold _send_to_elasticsearch. rewrite Hd, Hh, Hi. cbn.
  by destruct (bool_decide (status_code ∈ [200; 201]%Z)).
Qed.

Lemma send_fails_caught (self : CallbackModule) (host index : string)
  (log_entry : pydict) (e : exn) :
  disabled self = false -> es_host self = Attr host -> es_index self = Attr index ->
  isinstance e RequestException = true ->
  _send_to_elasticsearch self log_entry (Fails e)
  = ([HttpPost (doc_request host index log_entry);
      DisplayWarning ("[Elasticsearch] Error: " +:+ exn_str e)],
     Return tt).
Proof.
  intros Hd Hh Hi He. unfold _send_to_elasticsearch. rewrite Hd, Hh, Hi. cbn.
  unfold try_except. by rewrite He.
Qed.

(** The handler is no catch-all: an exception outside the
    [RequestException] hierarchy leaves the sink client. *)
Lemma send_fails_uncaught (self : CallbackModule) (host index : string)
  (log_entry : pydict) (e : exn) :
  disabled self = false -> es_host self = Attr host -> es_index self = Attr index ->
  isinstance e RequestException = false ->
  _send_to_elasticsearch self log_entry (Fails e)
  = ([HttpPost (doc_request host index log_entry)], Raise e).
Proof.
  intros Hd Hh Hi He. unfold _send_to_elasticsearch. rewrite Hd, Hh, Hi. cbn.
  unfold try_except. by rewrite He.
Qed.

Lemma loaded_sink (self : CallbackModule) :
  loaded self = true ->
  exists host index, es_host self = Attr host /\ es_index self = Attr index.
Proof.
  unfold loaded. rewrite !andb_true_iff.
  intros [[[_ Hh] Hi] _].
  destruct (es_host self) as [|host]; [done|].
  destruct (es_index self) as [|index]; [done|]. eauto.
Qed.

Lemma load_enabled (gethostname : string) (opts : options) :
  load true gethostname opts = ([], Return (loaded_instance gethostname opts)).
Proof. reflexivity. Qed.

Lemma init_without_requests (gethostname : string) :
  __init__ false gethostname
  = ([DisplayWarning "requests library is required for elasticsearch callback"],
     Return disabled_instance).
Proof. reflexivity. Qed.

Lemma send_returns (self : CallbackModule) (log_entry : pydict)
  (remote : post_outcome) :
  loaded self = true ->
  transport_level remote = true ->
  exists trace,
    _send_to_elasticsearch self log_entry remote = (trace, Return tt)
    /\ Forall post_or_warning trace.
Proof.
  intros Hl Hr. destruct (disabled self) eqn:Hd.
  - exists []. by rewrite send_disabled.
  - destruct (loaded_sink self Hl) as (host & index & Hh & Hi).
    destruct remote as [status_code|e|e]; [| |done].
    + eexists. rewrite (send_responds self host index) by done.
      split; [done|]. constructor; [done|].
      destruct (bool_decide _); repeat constructor.
    + eexists. rewrite (send_fails_caught self host index) by done.
      split; [done|]. repeat constructor.
Qed.

(** C3, as stated, fails: [json.dumps] runs inside the [try] and what it
    raises is no [RequestException]. A document holding an integer of 4301
    digits is rejected with a [ValueError], which leaves the sink client
    before any call is made. *)
Lemma send_raises_on_unserialisable_document :
  holds_oversized_int (VDict [("rc", VInt (10 ^ 4300))]) = true
  /\ _send_to_elasticsearch (loaded_instance "controller" default_options)
       [("rc", VInt (10 ^ 4300))]
       (DumpsRaises (Exn ValueError
          "Exceeds the limit (4300 digits) for integer string conversion; use sys.set_int_max_str_digits() to increase the limit"))
     = ([], Raise (Exn ValueError
          "Exceeds the limit (4300 digits) for integer string conversion; use sys.set_int_max_str_digits() to increase the limit")).
Proof. split; [by vm_compute | reflexivity]. Qed.

(** C3, as the code has it. For a document that [json.dumps] serialises,
    and whatever the call then meets among a response with any status code
    and a failure the HTTP library reports as a [RequestException],
    sending returns normally: no exception leaves the sink client, and all
    a failed delivery shows is a warning on the display. *)
Theorem send_never_raises (self : CallbackModule) (log_entry : pydict)
  (remote : post_outcome) :
  loaded self = true ->
  transport_level remote = true ->
  exists trace,
    _send_to_elasticsearch self log_entry remote = (trace, Return tt)
    /\ Forall post_or_warning trace.
Proof. apply send_returns. Qed.

Lemma send_never_raises_witness :
  exists trace,
    _send_to_elasticsearch (loaded_instance "controller" default_options)
      [("event_type", VStr "task_start")] (Fails (Exn ConnectTimeout "timed out"))
    = (trace, Return tt)
    /\ Forall post_or_warning trace.
Proof. apply send_never_raises; reflexivity. Defined.

(** C4. With the client enabled, a delivery shows no warning exactly when
    the response status is 200 or 201; any other status shows one warning
    that carries the status code, and a failure of the transport shows one
    warning that carries the message of the error. *)
Theorem send_reports_delivery (self : CallbackModule) (log_entry : pydict)
  (remote : post_outcome) :
  disabled self = false ->
  loaded self = true ->
  transport_level remote = true ->
  (warnings (_send_to_elasticsearch self log_entry remote).1 = []
     <-> remote = Responds 200 \/ remote = Responds 201)
  /\ (forall status_code, remote = Responds status_code ->
        status_code <> 200%Z -> status_code <> 201%Z ->
        warnings (_send_to_elasticsearch self log_entry remote).1
        = ["[Elasticsearch] Failed to send log: HTTP " +:+ str_of_int status_code])
  /\ (forall e, remote = Fails e ->
        warnings (_send_to_elasticsearch self log_entry remote).1
        = ["[Elasticsearch] Error: " +:+ exn_str e]).
Proof.
  intros Hd Hl Hr. destruct (loaded_sink self Hl) as (host & index & Hh & Hi).
  destruct remote as [status_code|e|e]; [| |done].
  - rewrite (send_responds self host index) by done. cbn [fst].
    case_bool_decide as Hin; cbn.
    + split; [|split].
      * split; [|done]. intros _.
        apply elem_of_cons in Hin as [->|Hin]; [by left|].
        apply elem_of_cons in Hin as [->|Hin]; [by right|].
        by apply elem_of_nil in Hin.
      * intros ? [= <-] H200 H201. exfalso.
        apply elem_of_cons in Hin as [->|Hin]; [done|].
        apply elem_of_cons in Hin as [->|Hin]; [done|].
        by apply elem_of_nil in Hin.
      * by intros.
    + split; [|split].
      * split; [done|]. intros [[= ->]|[= ->]]; exfalso; apply Hin.
        -- by left.
        -- right. by left.
      * by intros ? [= <-] _ _.
      * by intros.
  - rewrite (send_fails_caught self host index) by done. cbn.
    split; [|split].
    + split; [done | by intros [?|?]].
    + by intros.
    + by intros ? [= <-].
Qed.

Lemma send_reports_delivery_witness :
  (warnings (_send_to_elasticsearch (loaded_instance "controller" default_options)
               [("event_type", VStr "task_start")] (Responds 500)).1 = []
     <-> Responds 500 = Responds 200 \/ Responds 500 = Responds 201)
  /\ (forall status_code, Responds 500 = Responds status_code ->
        status_code <> 200%Z -> status_code <> 201%Z ->
        warnings (_send_to_elasticsearch (loaded_instance "controller" default_options)
                    [("event_type", VStr "task_start")] (Responds 500)).1
        = ["[Elasticsearch] Failed to send log: HTTP " +:+ str_of_int status_code])
  /\ (forall e, Responds 500 = Fails e ->
        warnings (_send_to_elasticsearch (loaded_instance "controller" default_options)
                    [("event_type", VStr "task_start")] (Responds 500)).1
        = ["[Elasticsearch] Error: " +:+ exn_str e]).
Proof. apply send_reports_delivery; reflexivity. Defined.

(** C9. A disabled client does nothing on send: it returns at once, with
    no request sent and nothing displayed. *)
Theorem send_disabled_noop (self : CallbackModule) (log_entry : pydict)
  (remote : post_outcome) :
  disabled self = true ->
  _send_to_elasticsearch self log_entry remote = ([], Return tt)
  /\ posts (_send_to_elasticsearch self log_entry remote).1 = [].
Proof. intros Hd. by rewrite send_disabled. Qed.

Lemma send_disabled_noop_witness :
  _send_to_elasticsearch disabled_instance [("event_type", VStr "task_start")]
    (Responds 500) = ([], Return tt)
  /\ posts (_send_to_elasticsearch disabled_instance
              [("event_type", VStr "task_start")] (Responds 500)).1 = [].
Proof. apply send_disabled_noop. reflexivity. Defined.

(** ** The document builders *)

Lemma on_start_loaded_started (gethostname _file_name : string) (opts : options)
  (utcnow : datetime) (remote : post_outcome) :
  transport_level remote = true ->
  exists trace self,
    v2_playbook_on_start (loaded_instance gethostname opts) _file_name utcnow remote
    = (trace, Return self)
    /\ loaded self = true /\ started self /\ disabled self = false.
Proof.
  intros Hr. unfold v2_playbook_on_start, run_v2_playbook_on_start, loaded_instance.
  cbn [disabled playbook_name playbook_id start_time hostname es_host es_index
       log_task_results].
  match goal with |- context [_send_to_elasticsearch ?s ?d remote] =>
    destruct (send_returns s d remote eq_refl Hr) as (t & -> & _) end.
  cbn. do 2 eexists. split; [done|]. unfold started. cbn. eauto 10.
Qed.

(** C7. A task result that lacks an optional field gets the default: an
    ok result without [changed] is reported with [changed] false, a failed
    result without [msg] with the error message "Unknown error", and an
    unreachable host without [msg] with "Host unreachable". Each document
    is built without raising. *)
Theorem missing_fields_default (self : CallbackModule) (result : TaskResult)
  (ignore_errors : bool) (utcnow : datetime) :
  loaded self = true ->
  (dict_get (_result result) "changed" = None ->
     builds (v2_runner_on_ok_log_entry self result utcnow)
       (fun log_entry => dict_get log_entry "changed" = Some (VBool false)))
  /\ (dict_get (_result result) "msg" = None ->
     builds (v2_runner_on_failed_log_entry self result ignore_errors utcnow)
       (fun log_entry =>
          dict_get log_entry "error_message" = Some (VStr "Unknown error"))
     /\ builds (v2_runner_on_unreachable_log_entry self result utcnow)
       (fun log_entry =>
          dict_get log_entry "error_message" = Some (VStr "Host unreachable"))).
Proof.
  intros Hl. name_attributes self Hl. unfold builds.
  split; [intros Hnone | intros Hnone; split].
  - unfold v2_runner_on_ok_log_entry, dict_get_default. rewrite Hnone.
    destruct ltr; cbn; eexists; (split; reflexivity).
  - unfold v2_runner_on_failed_log_entry, dict_get_default. rewrite Hnone.
    destruct ltr; cbn; eexists; (split; reflexivity).
  - unfold v2_runner_on_unreachable_log_entry, dict_get_default. rewrite Hnone.
    cbn. eexists. split; reflexivity.
Qed.

Lemma missing_fields_default_witness :
  builds (v2_runner_on_failed_log_entry (loaded_instance "controller" default_options)
            {| _host := "h1"; _task := "install pkg"; _result := [] |} false
            {| isoformat := "2024-05-01T10:00:00"; strftime_YmdHMS := "20240501100000";
               instant_us := 0 |})
    (fun log_entry => dict_get log_entry "error_message" = Some (VStr "Unknown error")).
Proof.
  refine (proj1 (proj2 (missing_fields_default
    (loaded_instance "controller" default_options)
    {| _host := "h1"; _task := "install pkg"; _result := [] |} false
    {| isoformat := "2024-05-01T10:00:00"; strftime_YmdHMS := "20240501100000";
       instant_us := 0 |} _) _)); reflexivity.
Defined.

(** C8, as stated, fails: a play starting before [v2_playbook_on_start]
    raises nothing. The hook returns normally and the document it sends
    has a null run identity. *)
Lemma play_start_before_start_sends_null_document :
  (self ← load true "controller" default_options;
   v2_playbook_on_play_start self "web"
     {| isoformat := "2024-05-01T10:00:00"; strftime_YmdHMS := "20240501100000";
        instant_us := 0 |}
     (Responds 201))
  = ([HttpPost (doc_request "http://localhost:9200" "ansible-logs"
        [("@timestamp", VStr "2024-05-01T10:00:00Z");
         ("event_type", VStr "play_start");
         ("playbook_id", VNone);
         ("playbook", VNone);
         ("play", VStr "web");
         ("hostname", VStr "controller")])],
     Return tt).
Proof. reflexivity. Qed.

(** C8, as the code has it. Before [v2_playbook_on_start] has run, the
    builders for a play start, a task start and the four task outcomes
    raise nothing: each returns a document whose [playbook_id] and
    [playbook] are [None]. *)
Theorem before_start_builds_null_documents (self : CallbackModule)
  (play_name task_name : string) (result : TaskResult) (ignore_errors : bool)
  (utcnow : datetime) :
  loaded self = true ->
  before_start self ->
  builds (v2_playbook_on_play_start_log_entry self play_name utcnow) null_run_fields
  /\ builds (v2_playbook_on_task_start_log_entry self task_name utcnow) null_run_fields
  /\ builds (v2_runner_on_ok_log_entry self result utcnow) null_run_fields
  /\ builds (v2_runner_on_failed_log_entry self result ignore_errors utcnow)
       null_run_fields
  /\ builds (v2_runner_on_skipped_log_entry self result utcnow) null_run_fields
  /\ builds (v2_runner_on_unreachable_log_entry self result utcnow) null_run_fields.
Proof.
  intros Hl (Hname & Hid & _). name_attributes self Hl.
  cbn in Hname, Hid. injection Hname as ->. injection Hid as ->.
  unfold builds, null_run_fields.
  repeat split_and; try (eexists; split; [reflexivity | split; reflexivity]).
  - unfold v2_runner_on_ok_log_entry.
    destruct ltr; cbn; eexists; (split; [reflexivity | split; reflexivity]).
  - unfold v2_runner_on_failed_log_entry.
    destruct ltr; cbn; eexists; (split; [reflexivity | split; reflexivity]).
Qed.

Lemma before_start_builds_null_documents_witness :
  builds (v2_playbook_on_task_start_log_entry
            (loaded_instance "controller" default_options) "install pkg"
            {| isoformat := "2024-05-01T10:00:00"; strftime_YmdHMS := "20240501100000";
               instant_us := 0 |})
    null_run_fields.
Proof.
  refine (proj1 (proj2 (before_start_builds_null_documents
    (loaded_instance "controller" default_options) "web" "install pkg"
    {| _host := "h1"; _task := "install pkg"; _result := [] |} false
    {| isoformat := "2024-05-01T10:00:00"; strftime_YmdHMS := "20240501100000";
       instant_us := 0 |} _ _))).
  - reflexivity.
  - by repeat split.
Defined.

(** ** The final statistics *)

Lemma str_le_neq_lt (s1 s2 : string) : String.le s1 s2 -> s1 <> s2 -> str_lt s1 s2.
Proof.
  unfold String.le, str_lt, String.leb, String.ltb. intros Hle Hne.
  destruct (String.compare s1 s2) eqn:Hcmp; [|done|done].
  by apply String.compare_eq_iff in Hcmp.
Qed.

Lemma sorted_elem_of (l : list string) (h : string) : h ∈ sorted l <-> h ∈ l.
Proof. unfold sorted. by rewrite merge_sort_Permutation. Qed.

Lemma sorted_NoDup (l : list string) : NoDup l -> NoDup (sorted l).
Proof. unfold sorted. by rewrite merge_sort_Permutation. Qed.

Lemma StronglySorted_le_lt (l : list string) :
  NoDup l -> StronglySorted String.le l -> StronglySorted str_lt l.
Proof.
  induction 2 as [|x l Hl IH Hx]; [constructor|].
  apply NoDup_cons in H as [Hnin Hnd]. constructor; [auto|].
  apply Forall_forall. intros y Hy. apply str_le_neq_lt.
  - by eapply Forall_forall in Hx.
  - by intros ->.
Qed.

Lemma sorted_strictly_ascending (l : list string) :
  NoDup l -> StronglySorted str_lt (sorted l).
Proof.
  intros Hnd. apply StronglySorted_le_lt; [by apply sorted_NoDup|].
  apply (StronglySorted_merge_sort String.le).
Qed.

(** The loop over distinct hosts not in the accumulator yet appends one
    entry per host, in the order of the hosts. *)
Lemma foldl_summary_entry (stats : AggregateStats) (hosts : list string)
  (summary : pydict) :
  NoDup hosts -> (forall h, h ∈ hosts -> dict_get summary h = None) ->
  foldl (summary_entry stats) summary hosts
  = summary ++ map (fun h => (h, host_counts stats h)) hosts.
Proof.
  revert summary. induction hosts as [|h hosts IH]; intros summary Hnd Hfresh.
  - simpl. by rewrite app_nil_r.
  - apply NoDup_cons in Hnd as [Hh Hnd]. cbn [foldl map].
    rewrite IH; [|done|].
    + unfold summary_entry at 1.
      rewrite dict_set_fresh by (apply Hfresh; left).
      by rewrite <- app_assoc.
    + intros h' Hh'. unfold summary_entry.
      rewrite dict_get_set_ne by (intros ->; done). apply Hfresh. by right.
Qed.

Lemma dict_get_map_keys {V} (f : string -> V) (ks : list string) (k : string) :
  k ∈ ks -> dict_get (map (fun k => (k, f k)) ks) k = Some (f k).
Proof.
  induction ks as [|k0 ks IH]; [by intros ?%elem_of_nil|].
  intros Hin. cbn. destruct (decide (k = k0)) as [->|Hne]; [done|].
  apply elem_of_cons in Hin as [?|?]; [done | auto].
Qed.

Lemma dict_keys_map_keys {V} (f : string -> V) (ks : list string) :
  dict_keys (map (fun k => (k, f k)) ks) = ks.
Proof.
  unfold dict_keys. induction ks as [|k0 ks IH]; [done|]. cbn. by f_equal.
Qed.

(** C6. The document of the final statistics carries a [summary] whose
    keys, in iteration order, are the processed hosts in strictly
    ascending order, each mapped to its seven counters. *)
Theorem stats_summary_sorted (self : CallbackModule) (stats : AggregateStats)
  (end_time : datetime) :
  loaded self = true ->
  started self ->
  exists log_entry runtime summary,
    v2_playbook_on_stats_log_entry self stats end_time
      = ([], Return (log_entry, runtime))
    /\ dict_get log_entry "event_type" = Some (VStr "playbook_stats")
    /\ dict_get log_entry "summary" = Some (VDict summary)
    /\ StronglySorted str_lt (dict_keys summary)
    /\ (forall h, h ∈ dict_keys summary <-> h ∈ dom (processed stats))
    /\ (forall h, h ∈ dom (processed stats) ->
          dict_get summary h = Some (host_counts stats h)).
Proof.
  intros Hl ((name & Hname) & (id & Hid) & (t & Ht)). name_attributes self Hl.
  cbn in Hname, Hid, Ht. injection Hname as ->. injection Hid as ->.
  injection Ht as ->.
  set (hosts := sorted (elements (dom (processed stats)))).
  assert (Hnd : NoDup hosts) by apply sorted_NoDup, NoDup_elements.
  assert (Hsum : foldl (summary_entry stats) [] hosts
                 = map (fun h => (h, host_counts stats h)) hosts).
  { by rewrite foldl_summary_entry. }
  unfold v2_playbook_on_stats_log_entry. fold hosts. rewrite Hsum. cbn.
  do 3 eexists. split; [reflexivity|]. split; [reflexivity|].
  split; [reflexivity|]. rewrite dict_keys_map_keys.
  split; [|split].
  - apply sorted_strictly_ascending, NoDup_elements.
  - intros h. unfold hosts. by rewrite sorted_elem_of, elem_of_elements.
  - intros h Hh. apply (dict_get_map_keys (host_counts stats)).
    unfold hosts. by rewrite sorted_elem_of, elem_of_elements.
Qed.

Lemma stats_summary_sorted_witness :
  exists log_entry runtime summary,
    v2_playbook_on_stats_log_entry
      {| disabled := false;
         playbook_name := Attr (Some "deploy.yml");
         playbook_id := Attr (Some "workerA-20240501100000");
         start_time := Attr (Some {| isoformat := "2024-05-01T10:00:00";
                                     strftime_YmdHMS := "20240501100000";
                                     instant_us := 0 |});
         hostname := Attr "workerA";
         es_host := Attr "http://localhost:9200";
         es_index := Attr "ansible-logs";
         log_task_results := Attr true |}
      {| processed := {[ "h1" := 1%Z; "h0" := 1%Z ]};
         ok := {[ "h1" := 5%Z; "h0" := 4%Z ]}; failures := ∅; dark := ∅;
         changed := {[ "h1" := 1%Z ]}; skipped := ∅; rescued := ∅; ignored := ∅ |}
      {| isoformat := "2024-05-01T10:00:42.500000";
         strftime_YmdHMS := "20240501100042"; instant_us := 42500000 |}
      = ([], Return (log_entry, runtime))
    /\ dict_get log_entry "event_type" = Some (VStr "playbook_stats")
    /\ dict_get log_entry "summary" = Some (VDict summary)
    /\ StronglySorted str_lt (dict_keys summary)
    /\ (forall h, h ∈ dict_keys summary
          <-> h ∈ dom ({[ "h1" := 1%Z; "h0" := 1%Z ]} : gmap string Z))
    /\ (forall h, h ∈ dom ({[ "h1" := 1%Z; "h0" := 1%Z ]} : gmap string Z) ->
          dict_get summary h
          = Some (host_counts
                    {| processed := {[ "h1" := 1%Z; "h0" := 1%Z ]};
                       ok := {[ "h1" := 5%Z; "h0" := 4%Z ]}; failures := ∅;
                       dark := ∅; changed := {[ "h1" := 1%Z ]}; skipped := ∅;
                       rescued := ∅; ignored := ∅ |} h)).
Proof.
  apply stats_summary_sorted; [reflexivity|].
  repeat split; eexists; reflexivity.
Defined.

(** The hosts [h1] and [h0], processed in that order, come out as [h0],
    [h1]. *)
Example stats_summary_two_hosts :
  dict_keys (foldl (summary_entry
      {| processed := {[ "h1" := 1%Z; "h0" := 1%Z ]};
         ok := {[ "h1" := 5%Z; "h0" := 4%Z ]}; failures := ∅; dark := ∅;
         changed := {[ "h1" := 1%Z ]}; skipped := ∅; rescued := ∅; ignored := ∅ |})
    [] (sorted (elements (dom ({[ "h1" := 1%Z; "h0" := 1%Z ]} : gmap string Z)))))
  = ["h0"; "h1"].
Proof. vm_compute. reflexivity. Qed.

(** The final statistics before [v2_playbook_on_start]: the subtraction
    from the [None] start time raises, and nothing is sent. *)
Lemma stats_before_start_raises (gethostname : string) (opts : options)
  (stats : AggregateStats) (end_time : datetime) :
  v2_playbook_on_stats_log_entry (loaded_instance gethostname opts) stats end_time
  = ([], Raise (Exn TypeError
       "unsupported operand type(s) for -: 'datetime.datetime' and 'NoneType'")).
Proof. reflexivity. Qed.

(** A failed delivery does not abort the hook that caused it. *)
Lemma runner_on_failed_returns (self : CallbackModule) (result : TaskResult)
  (ignore_errors : bool) (utcnow : datetime) (remote : post_outcome) :
  loaded self = true -> transport_level remote = true ->
  exists trace, v2_runner_on_failed self result ignore_errors utcnow remote
                = (trace, Return tt).
Proof.
  intros Hl Hr. unfold v2_runner_on_failed.
  assert (exists log_entry,
    v2_runner_on_failed_log_entry self result ignore_errors utcnow
    = ([], Return log_entry)) as [log_entry ->].
  { pose proof Hl as Hl'. name_attributes self Hl'.
    unfold v2_runner_on_failed_log_entry. destruct ltr; cbn; eauto. }
  destruct (send_returns self log_entry remote Hl Hr) as (t & Ht & _).
  cbn. rewrite Ht. cbn. eauto.
Qed.

(** ** More on the sanitizer *)

Lemma omap_nil_iff {A B} (f : A -> option B) (l : list A) :
  omap f l = [] <-> forall x, x ∈ l -> f x = None.
Proof.
  induction l as [|x l IH]; cbn.
  - split; [by intros _ ? ?%elem_of_nil | done].
  - destruct (f x) eqn:Hfx.
    + split; [done|]. intros H. rewrite H in Hfx by left. done.
    + rewrite IH. split.
      * intros H y [->|Hy]%elem_of_cons; auto.
      * intros H y Hy. apply H. by right.
Qed.

(** X1. The sanitized result depends on the raw result only through the
    values of the allow-listed keys: two raw results that agree on them,
    whatever their other keys and the order of their items, are sanitized
    to the same mapping, items in the same order. *)
Theorem clean_result_only_reads_safe_keys (result1 result2 : pydict) :
  (forall key, key ∈ safe_keys -> dict_get result1 key = dict_get result2 key) ->
  _clean_result result1 = _clean_result result2.
Proof.
  intros Hagree. rewrite (clean_result_items result1), (clean_result_items result2).
  apply list_omap_ext, Forall_Forall2_diag, Forall_forall. intros k Hk.
  by rewrite (Hagree k Hk).
Qed.

Lemma clean_result_only_reads_safe_keys_witness :
  _clean_result [("rc", VInt 0); ("stdout", VStr "done")]
  = _clean_result [("stdout", VStr "done"); ("pid", VInt 7); ("rc", VInt 0)].
Proof.
  apply clean_result_only_reads_safe_keys. intros key Hkey.
  repeat (apply elem_of_cons in Hkey as [->|Hkey]; [reflexivity|]).
  by apply elem_of_nil in Hkey.
Defined.

(** X2. The sanitized result is empty exactly when the raw result has none
    of the allow-listed keys; in particular the empty result is sanitized
    to the empty mapping. *)
Theorem clean_result_empty_iff (result : pydict) :
  _clean_result result = []
  <-> forall key, key ∈ safe_keys -> dict_get result key = None.
Proof.
  rewrite clean_result_items, omap_nil_iff. split; intros H key Hkey.
  - specialize (H key Hkey). by destruct (dict_get result key).
  - by rewrite (H key Hkey).
Qed.

(** X3. The keys of the sanitized result come in the order of the
    allow-list, whatever the order of the raw result, and none comes
    twice. *)
Theorem clean_result_keys_ordered (result : pydict) :
  dict_keys (_clean_result result) `sublist_of` safe_keys
  /\ NoDup (dict_keys (_clean_result result)).
Proof.
  assert (dict_keys (_clean_result result) `sublist_of` safe_keys) as Hsub.
  { rewrite clean_result_keys. apply sublist_filter. }
  split; [done|]. by eapply sublist_NoDup; [apply safe_keys_NoDup|].
Qed.

(** X4. Sanitizing keeps the type and the head of a value: a string comes
    out as a string with the same first 5000 characters, a list as a list
    with the same first 50 elements. *)
Theorem clean_result_keeps_prefix (result : pydict) (key : string) :
  key ∈ safe_keys ->
  (forall s, dict_get result key = Some (VStr s) ->
     exists s', dict_get (_clean_result result) key = Some (VStr s')
                /\ substring 0 5000 s' = substring 0 5000 s)
  /\ (forall l, dict_get result key = Some (VList l) ->
     exists l', dict_get (_clean_result result) key = Some (VList l')
                /\ take 50 l' = take 50 l).
Proof.
  intros Hkey. rewrite (clean_result_get result key Hkey). split.
  - intros s ->. cbn [fmap option_fmap option_map].
    destruct (Nat.le_gt_cases (String.length s) max_str_len) as [Hle|Hgt].
    + rewrite clean_value_short_str by done. eauto.
    + rewrite clean_value_long_str by done. eexists. split; [done|].
      change (substring 0 5000) with (str_slice_to max_str_len).
      rewrite str_slice_to_append by (rewrite str_slice_to_length; lia).
      apply str_slice_to_idemp.
  - intros l ->. cbn [fmap option_fmap option_map].
    destruct (Nat.le_gt_cases (length l) max_list_len) as [Hle|Hgt].
    + rewrite clean_value_short_list by done. eauto.
    + rewrite clean_value_long_list by done. eexists. split; [done|].
      unfold list_slice_to. change 50 with max_list_len.
      rewrite take_app_le by (rewrite length_take_le; lia).
      apply take_idemp.
Qed.

Lemma clean_result_keeps_prefix_witness :
  exists l', dict_get (_clean_result [("stdout_lines", VList (replicate 60 (VInt 1)))])
               "stdout_lines" = Some (VList l')
             /\ take 50 l' = take 50 (replicate 60 (VInt 1)).
Proof.
  refine (proj2 (clean_result_keeps_prefix
    [("stdout_lines", VList (replicate 60 (VInt 1)))] "stdout_lines" _) _ _).
  - by_computation.
  - reflexivity.
Defined.

(** X5. Truncation can lengthen: a string of 5001 to 5014 characters comes
    out longer than it went in, because the marker has 15 characters; from
    5015 characters on the output is no longer than the input. *)
Theorem clean_result_may_lengthen (result : pydict) (key : string) (s : string) :
  key ∈ safe_keys ->
  dict_get result key = Some (VStr s) ->
  5000 < String.length s ->
  exists s', dict_get (_clean_result result) key = Some (VStr s')
    /\ (String.length s < 5000 + 15 -> String.length s < String.length s')
    /\ (5000 + 15 <= String.length s -> String.length s' <= String.length s).
Proof.
  intros Hkey Hget Hlen. rewrite (clean_result_get result key Hkey), Hget.
  cbn [fmap option_fmap option_map]. rewrite clean_value_long_str by done.
  eexists. split; [done|]. rewrite truncated_str_length by done.
  change (String.length truncated) with 15. change max_str_len with 5000. lia.
Qed.

Lemma clean_result_may_lengthen_witness :
  exists s', dict_get (_clean_result [("stdout", VStr (str_repeat "a" (5000 + 1)))])
               "stdout" = Some (VStr s')
    /\ (String.length (str_repeat "a" (5000 + 1)) < 5000 + 15 ->
        String.length (str_repeat "a" (5000 + 1)) < String.length s')
    /\ (5000 + 15 <= String.length (str_repeat "a" (5000 + 1)) ->
        String.length s' <= String.length (str_repeat "a" (5000 + 1))).
Proof.
  apply clean_result_may_lengthen.
  - by_computation.
  - reflexivity.
  - rewrite str_repeat_length. lia.
Defined.

(** ** Traces of composed computations *)

Lemma posts_app (t1 t2 : list effect) : posts (t1 ++ t2) = posts t1 ++ posts t2.
Proof. apply omap_app. Qed.

Lemma warnings_app (t1 t2 : list effect) :
  warnings (t1 ++ t2) = warnings t1 ++ warnings t2.
Proof. apply omap_app. Qed.

Lemma io_bind_trace {A B} (m : io A) (f : A -> io B) :
  (m ≫= f).1 = m.1 ++ match m.2 with Return a => (f a).1 | Raise _ => [] end.
Proof.
  destruct m as [t [a|e]]; unfold mbind, io_bind; cbn.
  - by destruct (f a).
  - by rewrite app_nil_r.
Qed.

Lemma io_bind_return {A B} (a : A) (f : A -> io B) : ([], Return a) ≫= f = f a.
Proof. unfold mbind, io_bind. by destruct (f a). Qed.

Lemma io_bind_raise {A B} (t : list effect) (e : exn) (f : A -> io B) :
  (t, Raise e) ≫= f = (t, Raise e).
Proof. reflexivity. Qed.

Lemma io_then_perform (t : list effect) (e : effect) :
  ((t, Return tt) : io unit) ≫= (fun _ => perform e) = (t ++ [e], Return tt).
Proof. reflexivity. Qed.

(** ** More on the sink client *)

Lemma send_posts_le (self : CallbackModule) (log_entry : pydict) (remote : post_outcome) :
  length (posts (_send_to_elasticsearch self log_entry remote).1) <= 1.
Proof.
  unfold _send_to_elasticsearch, try_except.
  destruct (disabled self); [cbn; lia|].
  destruct (es_host self) as [|host], (es_index self) as [|index],
    remote as [status_code|e|e]; cbn;
    repeat (match goal with |- context [if ?b then _ else _] => destruct b end; cbn);
    lia.
Qed.

Lemma send_dumps_raises (self : CallbackModule) (host index : string)
  (log_entry : pydict) (e : exn) :
  disabled self = false -> es_host self = Attr host -> es_index self = Attr index ->
  _send_to_elasticsearch self log_entry (DumpsRaises e)
  = if isinstance e RequestException
    then ([DisplayWarning ("[Elasticsearch] Error: " +:+ exn_str e)], Return tt)
    else ([], Raise e).
Proof.
  intros Hd Hh Hi. unfold _send_to_elasticsearch. rewrite Hd, Hh, Hi. cbn.
  unfold try_except. by destruct (isinstance e RequestException).
Qed.

(** X6. An enabled client calls [requests.post] exactly once for a document
    that [json.dumps] serialises, whatever that call returns or raises (no
    second attempt after a failure), with the URL
    [<es_host>/<es_index>/_doc], the JSON text of the document, the JSON
    content type and a timeout of 5 seconds; when [json.dumps] raises, the
    call is not made at all. *)
Theorem send_calls_post_once (self : CallbackModule) (host index : string)
  (log_entry : pydict) (remote : post_outcome) :
  disabled self = false ->
  es_host self = Attr host ->
  es_index self = Attr index ->
  posts (_send_to_elasticsearch self log_entry remote).1
  = match remote with
    | DumpsRaises _ => []
    | Responds _ | Fails _ =>
        [{| req_url := host +:+ "/" +:+ index +:+ "/_doc";
            req_data := JsonText (VDict log_entry);
            req_headers := [("Content-Type", "application/json")];
            req_timeout := 5 |}]
    end.
Proof.
  intros Hd Hh Hi. destruct remote as [status_code|e|e].
  - rewrite (send_responds self host index) by done. cbn.
    by destruct (bool_decide _).
  - destruct (isinstance e RequestException) eqn:He.
    + by rewrite (send_fails_caught self host index).
    + by rewrite (send_fails_uncaught self host index).
  - rewrite (send_dumps_raises self host index) by done.
    by destruct (isinstance e RequestException).
Qed.

Lemma send_calls_post_once_witness :
  posts (_send_to_elasticsearch (loaded_instance "controller" default_options)
           [("event_type", VStr "task_start")] (Fails (Exn ReadTimeout "read timed out"))).1
  = [{| req_url := "http://localhost:9200" +:+ "/" +:+ "ansible-logs" +:+ "/_doc";
        req_data := JsonText (VDict [("event_type", VStr "task_start")]);
        req_headers := [("Content-Type", "application/json")];
        req_timeout := 5 |}].
Proof.
  apply (send_calls_post_once (loaded_instance "controller" default_options)
           "http://localhost:9200" "ansible-logs" [("event_type", VStr "task_start")]
           (Fails (Exn ReadTimeout "read timed out"))); reflexivity.
Defined.

(** X7. The handler of the sink client is no catch-all: an exception of
    the HTTP call that is not a [RequestException] leaves
    [_send_to_elasticsearch] after the request was issued, and no warning
    is displayed. *)
Theorem send_lets_other_exceptions_through (self : CallbackModule)
  (log_entry : pydict) (e : exn) :
  disabled self = false ->
  loaded self = true ->
  isinstance e RequestException = false ->
  exists trace,
    _send_to_elasticsearch self log_entry (Fails e) = (trace, Raise e)
    /\ warnings trace = []
    /\ length (posts trace) = 1.
Proof.
  intros Hd Hl He. destruct (loaded_sink self Hl) as (host & index & Hh & Hi).
  eexists. by rewrite (send_fails_uncaught self host index).
Qed.

Lemma send_lets_other_exceptions_through_witness :
  exists trace,
    _send_to_elasticsearch (loaded_instance "controller" default_options)
      [("event_type", VStr "task_start")] (Fails (Exn TypeError "not serializable"))
    = (trace, Raise (Exn TypeError "not serializable"))
    /\ warnings trace = []
    /\ length (posts trace) = 1.
Proof. apply send_lets_other_exceptions_through; reflexivity. Defined.

(** ** More on the hooks *)

(** A builder has no effect, on any instance, also when it raises. *)
Lemma builders_no_effects (self : CallbackModule) (play_name task_name : string)
  (result : TaskResult) (ignore_errors : bool) (stats : AggregateStats)
  (utcnow : datetime) :
  (v2_playbook_on_play_start_log_entry self play_name utcnow).1 = []
  /\ (v2_playbook_on_task_start_log_entry self task_name utcnow).1 = []
  /\ (v2_runner_on_ok_log_entry self result utcnow).1 = []
  /\ (v2_runner_on_failed_log_entry self result ignore_errors utcnow).1 = []
  /\ (v2_runner_on_skipped_log_entry self result utcnow).1 = []
  /\ (v2_runner_on_unreachable_log_entry self result utcnow).1 = []
  /\ (v2_playbook_on_stats_log_entry self stats utcnow).1 = [].
Proof.
  destruct self as [dis pn pid st hn eh ei ltr].
  repeat split_and.
  - destruct pid, pn, hn; reflexivity.
  - destruct pid, pn, hn; reflexivity.
  - destruct pid, pn, hn, ltr as [|[]]; reflexivity.
  - destruct pid, pn, hn, ltr as [|[]]; reflexivity.
  - destruct pid, pn, hn; reflexivity.
  - destruct pid, pn, hn; reflexivity.
  - destruct st as [|[t|]], pid, pn, hn; reflexivity.
Qed.

(** On a loaded instance the builders of the task and play events return. *)
Lemma builders_return (self : CallbackModule) (play_name task_name : string)
  (result : TaskResult) (ignore_errors : bool) (utcnow : datetime) :
  loaded self = true ->
  (exists d, v2_playbook_on_play_start_log_entry self play_name utcnow = ([], Return d))
  /\ (exists d, v2_playbook_on_task_start_log_entry self task_name utcnow = ([], Return d))
  /\ (exists d, v2_runner_on_ok_log_entry self result utcnow = ([], Return d))
  /\ (exists d, v2_runner_on_failed_log_entry self result ignore_errors utcnow
                = ([], Return d))
  /\ (exists d, v2_runner_on_skipped_log_entry self result utcnow = ([], Return d))
  /\ (exists d, v2_runner_on_unreachable_log_entry self result utcnow = ([], Return d)).
Proof.
  intros Hl. name_attributes self Hl.
  repeat split_and; try (eexists; reflexivity).
  - unfold v2_runner_on_ok_log_entry. destruct ltr; cbn; eauto.
  - unfold v2_runner_on_failed_log_entry. destruct ltr; cbn; eauto.
Qed.

Lemma hook_posts_le {A B} (builder : io A) (k : A -> io B) :
  builder.1 = [] -> (forall a, length (posts (k a).1) <= 1) ->
  length (posts (builder ≫= k).1) <= 1.
Proof.
  intros Hb Hk. rewrite io_bind_trace, Hb. cbn [app].
  destruct (builder.2); [apply Hk | cbn; lia].
Qed.

Lemma then_perform_posts (m : io unit) (e : effect) :
  posts [e] = [] -> posts (m ≫= (fun _ => perform e)).1 = posts m.1.
Proof.
  intros He. rewrite io_bind_trace, posts_app.
  destruct (m.2); cbn [perform fst]; [rewrite He|]; by rewrite app_nil_r.
Qed.

(** X8. No hook ever calls [requests.post] more than once, whatever the
    state of the instance, the event and what the call meets. *)
Theorem hooks_post_at_most_once (format_2f : Z -> Z -> string)
  (self : CallbackModule) (_file_name play_name task_name : string)
  (is_conditional ignore_errors : bool) (result : TaskResult)
  (stats : AggregateStats) (utcnow : datetime) (remote : post_outcome) :
  length (posts (v2_playbook_on_start self _file_name utcnow remote).1) <= 1
  /\ length (posts (v2_playbook_on_play_start self play_name utcnow remote).1) <= 1
  /\ length (posts (v2_playbook_on_task_start self task_name is_conditional
                      utcnow remote).1) <= 1
  /\ length (posts (v2_runner_on_ok self result utcnow remote).1) <= 1
  /\ length (posts (v2_runner_on_failed self result ignore_errors utcnow remote).1) <= 1
  /\ length (posts (v2_runner_on_skipped self result utcnow remote).1) <= 1
  /\ length (posts (v2_runner_on_unreachable self result utcnow remote).1) <= 1
  /\ length (posts (v2_playbook_on_stats format_2f self stats utcnow remote).1) <= 1.
Proof.
  destruct (builders_no_effects self play_name task_name result ignore_errors
              stats utcnow) as (Hplay & Htask & Hok & Hfailed & Hskip & Hunr & Hstats).
  repeat split_and.
  - unfold v2_playbook_on_start, run_v2_playbook_on_start.
    destruct (hostname self) as [|hn]; [cbn; lia|].
    cbn [disabled playbook_name playbook_id start_time hostname es_host es_index
         log_task_results].
    rewrite io_bind_trace, posts_app, length_app, then_perform_posts by done.
    match goal with |- context [_send_to_elasticsearch ?s ?d remote] =>
      pose proof (send_posts_le s d remote) as Hs end.
    match goal with |- context [match ?o with Return _ => _ | Raise _ => _ end] =>
      destruct o end; cbn in *; lia.
  - apply hook_posts_le; [done|]. intros d. apply send_posts_le.
  - apply hook_posts_le; [done|]. intros d. apply send_posts_le.
  - apply hook_posts_le; [done|]. intros d. apply send_posts_le.
  - apply hook_posts_le; [done|]. intros d.
    rewrite then_perform_posts by done. apply send_posts_le.
  - apply hook_posts_le; [done|]. intros d. apply send_posts_le.
  - apply hook_posts_le; [done|]. intros d.
    rewrite then_perform_posts by done. apply send_posts_le.
  - apply hook_posts_le; [done|]. intros [d runtime].
    rewrite then_perform_posts by done. apply send_posts_le.
Qed.

Lemma on_start_result (self : CallbackModule) (hostname_ _file_name : string)
  (utcnow : datetime) (remote : post_outcome) :
  loaded self = true ->
  hostname self = Attr hostname_ ->
  transport_level remote = true ->
  v2_playbook_on_start self _file_name utcnow remote
  = ((_send_to_elasticsearch (opened_run self hostname_ _file_name utcnow)
        (playbook_start_entry hostname_ _file_name utcnow) remote).1
       ++ [DisplayMessage ("[Elasticsearch] Playbook started: " +:+ _file_name)],
     Return (opened_run self hostname_ _file_name utcnow)).
Proof.
  intros Hl Hh Hr. name_attributes self Hl. cbn in Hh. injection Hh as ->.
  unfold opened_run, playbook_start_entry, run_id, v2_playbook_on_start,
    run_v2_playbook_on_start.
  cbn [disabled playbook_name playbook_id start_time hostname es_host es_index
       log_task_results].
  match goal with |- context [_send_to_elasticsearch ?s ?d remote] =>
    destruct (send_returns s d remote eq_refl Hr) as (t & Ht & _) end.
  rewrite Ht. cbn. by rewrite app_nil_r.
Qed.

(** X9. The start of a playbook on a loaded instance opens the run: it
    sends one [playbook_start] document stamped with the run identifier
    [<hostname>-<start time as YYYYmmddHHMMSS>], displays that the playbook
    started, and leaves the instance holding the file name, the run
    identifier and the start time, its configuration unchanged. *)
Theorem on_start_opens_run (self : CallbackModule) (hostname_ _file_name : string)
  (utcnow : datetime) (remote : post_outcome) :
  loaded self = true ->
  hostname self = Attr hostname_ ->
  transport_level remote = true ->
  exists self',
    v2_playbook_on_start self _file_name utcnow remote
    = ((_send_to_elasticsearch self'
          [("@timestamp", VStr (isoformat utcnow +:+ "Z"));
           ("event_type", VStr "playbook_start");
           ("playbook_id", VStr (hostname_ +:+ "-" +:+ strftime_YmdHMS utcnow));
           ("playbook", VStr _file_name);
           ("hostname", VStr hostname_);
           ("status", VStr "started")] remote).1
         ++ [DisplayMessage ("[Elasticsearch] Playbook started: " +:+ _file_name)],
       Return self')
    /\ playbook_name self' = Attr (Some _file_name)
    /\ playbook_id self' = Attr (Some (hostname_ +:+ "-" +:+ strftime_YmdHMS utcnow))
    /\ start_time self' = Attr (Some utcnow)
    /\ hostname self' = hostname self
    /\ disabled self' = disabled self
    /\ es_host self' = es_host self
    /\ es_index self' = es_index self
    /\ log_task_results self' = log_task_results self.
Proof.
  intros Hl Hh Hr. exists (opened_run self hostname_ _file_name utcnow).
  split; [by apply on_start_result|]. by repeat split.
Qed.

Lemma on_start_opens_run_witness :
  exists self',
    v2_playbook_on_start (loaded_instance "workerA" default_options) "deploy.yml"
      {| isoformat := "2024-05-01T10:00:00"; strftime_YmdHMS := "20240501100000";
         instant_us := 0 |} (Responds 201)
    = ((_send_to_elasticsearch self'
          [("@timestamp", VStr ("2024-05-01T10:00:00" +:+ "Z"));
           ("event_type", VStr "playbook_start");
           ("playbook_id", VStr ("workerA" +:+ "-" +:+ "20240501100000"));
           ("playbook", VStr "deploy.yml");
           ("hostname", VStr "workerA");
           ("status", VStr "started")] (Responds 201)).1
         ++ [DisplayMessage ("[Elasticsearch] Playbook started: " +:+ "deploy.yml")],
       Return self')
    /\ playbook_name self' = Attr (Some "deploy.yml")
    /\ playbook_id self' = Attr (Some ("workerA" +:+ "-" +:+ "20240501100000"))
    /\ start_time self'
       = Attr (Some {| isoformat := "2024-05-01T10:00:00";
                       strftime_YmdHMS := "20240501100000"; instant_us := 0 |})
    /\ hostname self' = hostname (loaded_instance "workerA" default_options)
    /\ disabled self' = disabled (loaded_instance "workerA" default_options)
    /\ es_host self' = es_host (loaded_instance "workerA" default_options)
    /\ es_index self' = es_index (loaded_instance "workerA" default_options)
    /\ log_task_results self'
       = log_task_results (loaded_instance "workerA" default_options).
Proof.
  apply (on_start_opens_run (loaded_instance "workerA" default_options) "workerA"
           "deploy.yml"
           {| isoformat := "2024-05-01T10:00:00"; strftime_YmdHMS := "20240501100000";
              instant_us := 0 |} (Responds 201)); reflexivity.
Defined.

(** X10. The run context opened by the start of the playbook reaches the
    documents built afterwards: a play start carries the run identifier and
    the file name, and the final statistics carry in addition the start
    time and, as duration, the time elapsed since the start. *)
Theorem run_context_reaches_later_documents (self : CallbackModule)
  (hostname_ _file_name : string) (utcnow : datetime) (remote : post_outcome) :
  loaded self = true ->
  hostname self = Attr hostname_ ->
  transport_level remote = true ->
  exists trace self',
    v2_playbook_on_start self _file_name utcnow remote = (trace, Return self')
    /\ (forall play_name later,
          builds (v2_playbook_on_play_start_log_entry self' play_name later)
            (fun d =>
               dict_get d "playbook_id"
                 = Some (VStr (hostname_ +:+ "-" +:+ strftime_YmdHMS utcnow))
               /\ dict_get d "playbook" = Some (VStr _file_name)))
    /\ (forall stats end_time,
          exists d,
            v2_playbook_on_stats_log_entry self' stats end_time
              = ([], Return (d, {| delta_us := instant_us end_time - instant_us utcnow |}))
            /\ dict_get d "playbook_id"
                 = Some (VStr (hostname_ +:+ "-" +:+ strftime_YmdHMS utcnow))
            /\ dict_get d "playbook" = Some (VStr _file_name)
            /\ dict_get d "start_time" = Some (VStr (isoformat utcnow +:+ "Z"))
            /\ dict_get d "duration_seconds"
                 = Some (VFloat (instant_us end_time - instant_us utcnow) 1000000)).
Proof.
  intros Hl Hh Hr. rewrite (on_start_result self hostname_) by done.
  do 2 eexists. split; [reflexivity|].
  name_attributes self Hl. cbn in Hh. injection Hh as ->.
  split.
  - intros play_name later. eexists. split; [reflexivity|]. by split.
  - intros stats end_time. eexists. split; [reflexivity|]. by repeat split.
Qed.

Lemma run_context_reaches_later_documents_witness :
  exists trace self',
    v2_playbook_on_start (loaded_instance "workerA" default_options) "deploy.yml"
      {| isoformat := "2024-05-01T10:00:00"; strftime_YmdHMS := "20240501100000";
         instant_us := 0 |} (Responds 201) = (trace, Return self')
    /\ (forall play_name later,
          builds (v2_playbook_on_play_start_log_entry self' play_name later)
            (fun d =>
               dict_get d "playbook_id"
                 = Some (VStr ("workerA" +:+ "-" +:+ "20240501100000"))
               /\ dict_get d "playbook" = Some (VStr "deploy.yml")))
    /\ (forall stats end_time,
          exists d,
            v2_playbook_on_stats_log_entry self' stats end_time
              = ([], Return (d, {| delta_us := instant_us end_time - 0 |}))
            /\ dict_get d "playbook_id"
                 = Some (VStr ("workerA" +:+ "-" +:+ "20240501100000"))
            /\ dict_get d "playbook" = Some (VStr "deploy.yml")
            /\ dict_get d "start_time" = Some (VStr ("2024-05-01T10:00:00" +:+ "Z"))
            /\ dict_get d "duration_seconds"
                 = Some (VFloat (instant_us end_time - 0) 1000000)).
Proof.
  apply (run_context_reaches_later_documents
           (loaded_instance "workerA" default_options) "workerA" "deploy.yml"
           {| isoformat := "2024-05-01T10:00:00"; strftime_YmdHMS := "20240501100000";
              instant_us := 0 |} (Responds 201)); reflexivity.
Defined.

(** X11. On a loaded instance every play, task-start and task-outcome
    document carries the time of the event in ISO format followed by "Z",
    its event type, and the run identifier, playbook name and host name
    the instance holds. *)
Theorem documents_carry_run_stamp (self : CallbackModule) (play_name task_name : string)
  (result : TaskResult) (ignore_errors : bool) (utcnow : datetime) :
  loaded self = true ->
  builds (v2_playbook_on_play_start_log_entry self play_name utcnow)
    (run_stamp self utcnow "play_start")
  /\ builds (v2_playbook_on_task_start_log_entry self task_name utcnow)
       (run_stamp self utcnow "task_start")
  /\ builds (v2_runner_on_ok_log_entry self result utcnow)
       (run_stamp self utcnow "task_ok")
  /\ builds (v2_runner_on_failed_log_entry self result ignore_errors utcnow)
       (run_stamp self utcnow "task_failed")
  /\ builds (v2_runner_on_skipped_log_entry self result utcnow)
       (run_stamp self utcnow "task_skipped")
  /\ builds (v2_runner_on_unreachable_log_entry self result utcnow)
       (run_stamp self utcnow "host_unreachable").
Proof.
  intros Hl. name_attributes self Hl. unfold builds, run_stamp.
  repeat split_and; try (eexists; split; [reflexivity | by repeat split]).
  - unfold v2_runner_on_ok_log_entry.
    destruct ltr; cbn; eexists; (split; [reflexivity | by repeat split]).
  - unfold v2_runner_on_failed_log_entry.
    destruct ltr; cbn; eexists; (split; [reflexivity | by repeat split]).
Qed.

Lemma documents_carry_run_stamp_witness :
  builds (v2_runner_on_skipped_log_entry (loaded_instance "controller" default_options)
            {| _host := "h1"; _task := "install pkg"; _result := [] |}
            {| isoformat := "2024-05-01T10:00:00"; strftime_YmdHMS := "20240501100000";
               instant_us := 0 |})
    (run_stamp (loaded_instance "controller" default_options)
       {| isoformat := "2024-05-01T10:00:00"; strftime_YmdHMS := "20240501100000";
          instant_us := 0 |} "task_skipped").
Proof.
  refine (proj1 (proj2 (proj2 (proj2 (proj2 (documents_carry_run_stamp
    (loaded_instance "controller" default_options) "web" "install pkg"
    {| _host := "h1"; _task := "install pkg"; _result := [] |} false
    {| isoformat := "2024-05-01T10:00:00"; strftime_YmdHMS := "20240501100000";
       instant_us := 0 |} _)))))).
  reflexivity.
Defined.

(** X12. The [result] field follows the [log_task_results] option: the
    documents of an ok and of a failed task carry the sanitized raw result
    when the option is on and no [result] at all when it is off; the
    documents of a skipped task and of an unreachable host never carry
    one. *)
Theorem result_field_follows_option (self : CallbackModule) (result : TaskResult)
  (ignore_errors : bool) (utcnow : datetime) (enabled : bool) :
  loaded self = true ->
  log_task_results self = Attr enabled ->
  builds (v2_runner_on_ok_log_entry self result utcnow)
    (fun d => dict_get d "result"
              = if enabled then Some (VDict (_clean_result (_result result))) else None)
  /\ builds (v2_runner_on_failed_log_entry self result ignore_errors utcnow)
    (fun d => dict_get d "result"
              = if enabled then Some (VDict (_clean_result (_result result))) else None)
  /\ builds (v2_runner_on_skipped_log_entry self result utcnow)
       (fun d => dict_get d "result" = None)
  /\ builds (v2_runner_on_unreachable_log_entry self result utcnow)
       (fun d => dict_get d "result" = None).
Proof.
  intros Hl Hopt. name_attributes self Hl. cbn in Hopt. injection Hopt as ->.
  unfold builds. repeat split_and; try (eexists; split; reflexivity).
  - unfold v2_runner_on_ok_log_entry.
    destruct enabled; cbn; eexists; (split; reflexivity).
  - unfold v2_runner_on_failed_log_entry.
    destruct enabled; cbn; eexists; (split; reflexivity).
Qed.

Lemma result_field_follows_option_witness :
  builds (v2_runner_on_ok_log_entry (loaded_instance "controller" default_options)
            {| _host := "h1"; _task := "install pkg";
               _result := [("rc", VInt 0); ("pid", VInt 7)] |}
            {| isoformat := "2024-05-01T10:00:00"; strftime_YmdHMS := "20240501100000";
               instant_us := 0 |})
    (fun d => dict_get d "result"
              = if true
                then Some (VDict (_clean_result [("rc", VInt 0); ("pid", VInt 7)]))
                else None).
Proof.
  refine (proj1 (result_field_follows_option
    (loaded_instance "controller" default_options)
    {| _host := "h1"; _task := "install pkg";
       _result := [("rc", VInt 0); ("pid", VInt 7)] |} false
    {| isoformat := "2024-05-01T10:00:00"; strftime_YmdHMS := "20240501100000";
       instant_us := 0 |} true _ _)); reflexivity.
Defined.

(** X13. A field that is present wins over the default, whatever its
    value: [changed] is reported as the raw result has it, and a [msg] is
    reported as the error message even when it is [None] or not a
    string. *)
Theorem present_fields_are_kept (self : CallbackModule) (result : TaskResult)
  (ignore_errors : bool) (utcnow : datetime) (v : pyvalue) :
  loaded self = true ->
  (dict_get (_result result) "changed" = Some v ->
     builds (v2_runner_on_ok_log_entry self result utcnow)
       (fun d => dict_get d "changed" = Some v))
  /\ (dict_get (_result result) "msg" = Some v ->
     builds (v2_runner_on_failed_log_entry self result ignore_errors utcnow)
       (fun d => dict_get d "error_message" = Some v)
     /\ builds (v2_runner_on_unreachable_log_entry self result utcnow)
       (fun d => dict_get d "error_message" = Some v)).
Proof.
  intros Hl. name_attributes self Hl. unfold builds.
  split; [intros Hsome | intros Hsome; split].
  - unfold v2_runner_on_ok_log_entry, dict_get_default. rewrite Hsome.
    destruct ltr; cbn; eexists; (split; reflexivity).
  - unfold v2_runner_on_failed_log_entry, dict_get_default. rewrite Hsome.
    destruct ltr; cbn; eexists; (split; reflexivity).
  - unfold v2_runner_on_unreachable_log_entry, dict_get_default. rewrite Hsome.
    cbn. eexists. split; reflexivity.
Qed.

Lemma present_fields_are_kept_witness :
  builds (v2_runner_on_unreachable_log_entry
            (loaded_instance "controller" default_options)
            {| _host := "h1"; _task := "gather facts"; _result := [("msg", VNone)] |}
            {| isoformat := "2024-05-01T10:00:00"; strftime_YmdHMS := "20240501100000";
               instant_us := 0 |})
    (fun d => dict_get d "error_message" = Some VNone).
Proof.
  refine (proj2 (proj2 (present_fields_are_kept
    (loaded_instance "controller" default_options)
    {| _host := "h1"; _task := "gather facts"; _result := [("msg", VNone)] |} false
    {| isoformat := "2024-05-01T10:00:00"; strftime_YmdHMS := "20240501100000";
       instant_us := 0 |} VNone _) _)); reflexivity.
Defined.

(** X14. The final statistics without a started run: when the start time
    is still [None], the hook raises a [TypeError] on the subtraction,
    before any document is sent or anything is displayed. *)
Theorem stats_without_start_raises (format_2f : Z -> Z -> string)
  (self : CallbackModule) (stats : AggregateStats) (end_time : datetime)
  (remote : post_outcome) :
  start_time self = Attr None ->
  v2_playbook_on_stats format_2f self stats end_time remote
  = ([], Raise (Exn TypeError
       "unsupported operand type(s) for -: 'datetime.datetime' and 'NoneType'")).
Proof.
  intros Hst. unfold v2_playbook_on_stats, v2_playbook_on_stats_log_entry.
  by rewrite Hst.
Qed.

Lemma stats_without_start_raises_witness :
  v2_playbook_on_stats (fun _ _ => "0.00") (loaded_instance "controller" default_options)
    {| processed := {[ "h1" := 1%Z ]}; ok := ∅; failures := ∅; dark := ∅;
       changed := ∅; skipped := ∅; rescued := ∅; ignored := ∅ |}
    {| isoformat := "2024-05-01T10:00:00"; strftime_YmdHMS := "20240501100000";
       instant_us := 0 |} (Responds 201)
  = ([], Raise (Exn TypeError
       "unsupported operand type(s) for -: 'datetime.datetime' and 'NoneType'")).
Proof. apply stats_without_start_raises. reflexivity. Defined.

Lemma runner_on_failed_result (self : CallbackModule) (result : TaskResult)
  (ignore_errors : bool) (utcnow : datetime) (remote : post_outcome) :
  loaded self = true -> transport_level remote = true ->
  exists d,
    v2_runner_on_failed_log_entry self result ignore_errors utcnow = ([], Return d)
    /\ v2_runner_on_failed self result ignore_errors utcnow remote
       = ((_send_to_elasticsearch self d remote).1
            ++ [DisplayWarning ("[Elasticsearch] Task failed: " +:+ _task result)],
          Return tt).
Proof.
  intros Hl Hr.
  destruct (builders_return self "" "" result ignore_errors utcnow Hl)
    as (_ & _ & _ & [d Hd] & _).
  exists d. split; [done|]. unfold v2_runner_on_failed.
  rewrite Hd, io_bind_return.
  destruct (send_returns self d remote Hl Hr) as (t & Ht & _).
  by rewrite Ht, io_then_perform.
Qed.

(** X15. A failed task is always announced on the display: after the
    delivery, whether it succeeded or not, the hook shows the warning
    "[Elasticsearch] Task failed: <task>", and the hook for an unreachable
    host shows the error "[Elasticsearch] Host unreachable: <host>". A
    failed task whose document is refused with a status other than 200 and
    201 therefore shows two warnings. *)
Theorem outcome_hooks_announce (self : CallbackModule) (result : TaskResult)
  (ignore_errors : bool) (utcnow : datetime) (remote : post_outcome) :
  loaded self = true ->
  transport_level remote = true ->
  (exists d,
     v2_runner_on_failed_log_entry self result ignore_errors utcnow = ([], Return d)
     /\ v2_runner_on_failed self result ignore_errors utcnow remote
        = ((_send_to_elasticsearch self d remote).1
             ++ [DisplayWarning ("[Elasticsearch] Task failed: " +:+ _task result)],
           Return tt))
  /\ (exists d,
     v2_runner_on_unreachable_log_entry self result utcnow = ([], Return d)
     /\ v2_runner_on_unreachable self result utcnow remote
        = ((_send_to_elasticsearch self d remote).1
             ++ [DisplayError ("[Elasticsearch] Host unreachable: " +:+ _host result)],
           Return tt))
  /\ (forall status_code,
        disabled self = false -> remote = Responds status_code ->
        status_code <> 200%Z -> status_code <> 201%Z ->
        warnings (v2_runner_on_failed self result ignore_errors utcnow remote).1
        = ["[Elasticsearch] Failed to send log: HTTP " +:+ str_of_int status_code;
           "[Elasticsearch] Task failed: " +:+ _task result]).
Proof.
  intros Hl Hr. split; [by apply runner_on_failed_result|]. split.
  - destruct (builders_return self "" "" result ignore_errors utcnow Hl)
      as (_ & _ & _ & _ & _ & [d Hd]).
    exists d. split; [done|]. unfold v2_runner_on_unreachable.
    rewrite Hd, io_bind_return.
    destruct (send_returns self d remote Hl Hr) as (t & Ht & _).
    by rewrite Ht, io_then_perform.
  - intros status_code Hd -> H200 H201.
    destruct (runner_on_failed_result self result ignore_errors utcnow
                (Responds status_code) Hl Hr) as (d & _ & ->).
    destruct (loaded_sink self Hl) as (host & index & Hh & Hi).
    rewrite (send_responds self host index) by done. cbn [fst].
    rewrite bool_decide_eq_false_2; [done|].
    intros [->|[->|?%elem_of_nil]%elem_of_cons]%elem_of_cons; done.
Qed.

Lemma outcome_hooks_announce_witness :
  warnings (v2_runner_on_failed (loaded_instance "controller" default_options)
              {| _host := "h1"; _task := "install pkg"; _result := [] |} false
              {| isoformat := "2024-05-01T10:00:00";
                 strftime_YmdHMS := "20240501100000"; instant_us := 0 |}
              (Responds 503)).1
  = ["[Elasticsearch] Failed to send log: HTTP " +:+ str_of_int 503;
     "[Elasticsearch] Task failed: " +:+ "install pkg"].
Proof.
  refine (proj2 (proj2 (outcome_hooks_announce
    (loaded_instance "controller" default_options)
    {| _host := "h1"; _task := "install pkg"; _result := [] |} false
    {| isoformat := "2024-05-01T10:00:00"; strftime_YmdHMS := "20240501100000";
       instant_us := 0 |} (Responds 503) _ _)) 503%Z _ _ _ _); done.
Defined.

Lemma stats_log_entry_result (self : CallbackModule) (stats : AggregateStats)
  (start end_time : datetime) :
  loaded self = true ->
  start_time self = Attr (Some start) ->
  exists d,
    v2_playbook_on_stats_log_entry self stats end_time
      = ([], Return (d, {| delta_us := instant_us end_time - instant_us start |}))
    /\ dict_get d "status" = Some (VStr "completed")
    /\ dict_get d "start_time" = Some (VStr (isoformat start +:+ "Z"))
    /\ dict_get d "end_time" = Some (VStr (isoformat end_time +:+ "Z"))
    /\ dict_get d "@timestamp" = Some (VStr (isoformat end_time +:+ "Z"))
    /\ dict_get d "duration_seconds"
         = Some (VFloat (instant_us end_time - instant_us start) 1000000).
Proof.
  intros Hl Hst. name_attributes self Hl. cbn in Hst. injection Hst as ->.
  eexists. split; [reflexivity|]. by repeat split.
Qed.

(** X16. The final statistics of a started run: the document is marked
    completed and carries the start time, the end time (also its
    timestamp) and, as duration, the time elapsed between the two; after
    the delivery the hook displays the same duration, formatted with two
    decimals. *)
Theorem stats_reports_duration (format_2f : Z -> Z -> string) (self : CallbackModule)
  (stats : AggregateStats) (start end_time : datetime) (remote : post_outcome) :
  loaded self = true ->
  start_time self = Attr (Some start) ->
  transport_level remote = true ->
  exists d,
    v2_playbook_on_stats_log_entry self stats end_time
      = ([], Return (d, {| delta_us := instant_us end_time - instant_us start |}))
    /\ dict_get d "status" = Some (VStr "completed")
    /\ dict_get d "start_time" = Some (VStr (isoformat start +:+ "Z"))
    /\ dict_get d "end_time" = Some (VStr (isoformat end_time +:+ "Z"))
    /\ dict_get d "@timestamp" = Some (VStr (isoformat end_time +:+ "Z"))
    /\ dict_get d "duration_seconds"
         = Some (VFloat (instant_us end_time - instant_us start) 1000000)
    /\ v2_playbook_on_stats format_2f self stats end_time remote
       = ((_send_to_elasticsearch self d remote).1
            ++ [DisplayMessage
                  ("[Elasticsearch] Playbook completed in "
                   +:+ format_2f (instant_us end_time - instant_us start)%Z 1000000%Z
                   +:+ "s")],
          Return tt).
Proof.
  intros Hl Hst Hr.
  destruct (stats_log_entry_result self stats start end_time Hl Hst)
    as (d & Hb & Hstatus & Hstart & Hend & Hts & Hdur).
  exists d. do 6 (split; [done|]).
  unfold v2_playbook_on_stats. rewrite Hb, io_bind_return.
  destruct (send_returns self d remote Hl Hr) as (t & Ht & _).
  rewrite Ht. reflexivity.
Qed.

Lemma stats_reports_duration_witness :
  exists d,
    v2_playbook_on_stats_log_entry
      (opened_run (loaded_instance "workerA" default_options) "workerA" "deploy.yml"
         {| isoformat := "2024-05-01T10:00:00"; strftime_YmdHMS := "20240501100000";
            instant_us := 0 |})
      {| processed := {[ "h1" := 1%Z ]}; ok := {[ "h1" := 3%Z ]}; failures := ∅;
         dark := ∅; changed := ∅; skipped := ∅; rescued := ∅; ignored := ∅ |}
      {| isoformat := "2024-05-01T10:00:42.500000";
         strftime_YmdHMS := "20240501100042"; instant_us := 42500000 |}
      = ([], Return (d, {| delta_us := 42500000 - 0 |}))
    /\ dict_get d "status" = Some (VStr "completed")
    /\ dict_get d "start_time" = Some (VStr ("2024-05-01T10:00:00" +:+ "Z"))
    /\ dict_get d "end_time" = Some (VStr ("2024-05-01T10:00:42.500000" +:+ "Z"))
    /\ dict_get d "@timestamp" = Some (VStr ("2024-05-01T10:00:42.500000" +:+ "Z"))
    /\ dict_get d "duration_seconds" = Some (VFloat (42500000 - 0) 1000000)
    /\ v2_playbook_on_stats (fun _ _ => "42.50")
         (opened_run (loaded_instance "workerA" default_options) "workerA" "deploy.yml"
            {| isoformat := "2024-05-01T10:00:00"; strftime_YmdHMS := "20240501100000";
               instant_us := 0 |})
         {| processed := {[ "h1" := 1%Z ]}; ok := {[ "h1" := 3%Z ]}; failures := ∅;
            dark := ∅; changed := ∅; skipped := ∅; rescued := ∅; ignored := ∅ |}
         {| isoformat := "2024-05-01T10:00:42.500000";
            strftime_YmdHMS := "20240501100042"; instant_us := 42500000 |}
         (Responds 200)
       = ((_send_to_elasticsearch
             (opened_run (loaded_instance "workerA" default_options) "workerA"
                "deploy.yml"
                {| isoformat := "2024-05-01T10:00:00";
                   strftime_YmdHMS := "20240501100000"; instant_us := 0 |})
             d (Responds 200)).1
            ++ [DisplayMessage
                  ("[Elasticsearch] Playbook completed in " +:+ "42.50" +:+ "s")],
          Return tt).
Proof.
  apply (stats_reports_duration (fun _ _ => "42.50")
    (opened_run (loaded_instance "workerA" default_options) "workerA" "deploy.yml"
       {| isoformat := "2024-05-01T10:00:00"; strftime_YmdHMS := "20240501100000";
          instant_us := 0 |})
    {| processed := {[ "h1" := 1%Z ]}; ok := {[ "h1" := 3%Z ]}; failures := ∅;
       dark := ∅; changed := ∅; skipped := ∅; rescued := ∅; ignored := ∅ |}
    {| isoformat := "2024-05-01T10:00:00"; strftime_YmdHMS := "20240501100000";
       instant_us := 0 |}
    {| isoformat := "2024-05-01T10:00:42.500000";
       strftime_YmdHMS := "20240501100042"; instant_us := 42500000 |}
    (Responds 200)); reflexivity.
Defined.

(** X17. Without the HTTP library, [__init__] warns once, sets [disabled]
    and returns before assigning any attribute. On an instance in that
    state every hook raises an [AttributeError] at an attribute read,
    before sending or displaying anything, and the state lasts: neither
    [set_options] nor the assignments a failed start leaves behind get an
    instance out of it. *)
Theorem hooks_without_requests_raise (format_2f : Z -> Z -> string)
  (self : CallbackModule) (gethostname _file_name play_name task_name : string)
  (is_conditional ignore_errors : bool) (result : TaskResult)
  (stats : AggregateStats) (opts : options) (utcnow : datetime)
  (remote : post_outcome) :
  requests_missing self ->
  let raises := fun (A : Type) (m : io A) =>
    exists name,
      m = ([], Raise (Exn AttributeError
                        ("'CallbackModule' object has no attribute '" +:+ name +:+ "'"))) in
  (__init__ false gethostname
   = ([DisplayWarning "requests library is required for elasticsearch callback"],
      Return disabled_instance)
   /\ requests_missing disabled_instance)
  /\ requests_missing (set_options self opts)
  /\ requests_missing (run_v2_playbook_on_start self _file_name utcnow remote).1
  /\ raises _ (run_v2_playbook_on_start self _file_name utcnow remote).2
  /\ raises _ (v2_playbook_on_start self _file_name utcnow remote)
  /\ raises _ (v2_playbook_on_play_start self play_name utcnow remote)
  /\ raises _ (v2_playbook_on_task_start self task_name is_conditional utcnow remote)
  /\ raises _ (v2_runner_on_ok self result utcnow remote)
  /\ raises _ (v2_runner_on_failed self result ignore_errors utcnow remote)
  /\ raises _ (v2_runner_on_skipped self result utcnow remote)
  /\ raises _ (v2_runner_on_unreachable self result utcnow remote)
  /\ raises _ (v2_playbook_on_stats format_2f self stats utcnow remote).
Proof.
  destruct self as [dis pn pid st hn eh ei ltr]. unfold requests_missing.
  cbn [disabled hostname playbook_id start_time].
  intros (-> & -> & -> & Hst). cbv zeta.
  split; [by repeat split|].
  split; [by repeat split|].
  split; [repeat split; cbn; congruence|].
  repeat split_and.
  - by exists "hostname".
  - by exists "hostname".
  - by exists "playbook_id".
  - by exists "playbook_id".
  - by exists "playbook_id".
  - by exists "playbook_id".
  - by exists "playbook_id".
  - by exists "playbook_id".
  - destruct st as [|[t|]]; [by exists "start_time" | by exists "playbook_id" | done].
Qed.

Lemma hooks_without_requests_raise_witness :
  exists name,
    v2_playbook_on_stats (fun _ _ => "0.00")
      (run_v2_playbook_on_start disabled_instance "deploy.yml"
         {| isoformat := "2024-05-01T10:00:00"; strftime_YmdHMS := "20240501100000";
            instant_us := 0 |} (Responds 201)).1
      {| processed := {[ "h1" := 1%Z ]}; ok := ∅; failures := ∅; dark := ∅;
         changed := ∅; skipped := ∅; rescued := ∅; ignored := ∅ |}
      {| isoformat := "2024-05-01T10:00:42"; strftime_YmdHMS := "20240501100042";
         instant_us := 42000000 |} (Responds 201)
    = ([], Raise (Exn AttributeError
                    ("'CallbackModule' object has no attribute '" +:+ name +:+ "'"))).
Proof.
  refine (proj2 (proj2 (proj2 (proj2 (proj2 (proj2 (proj2 (proj2 (proj2 (proj2 (proj2
    (hooks_without_requests_raise (fun _ _ => "0.00")
       (run_v2_playbook_on_start disabled_instance "deploy.yml"
          {| isoformat := "2024-05-01T10:00:00"; strftime_YmdHMS := "20240501100000";
             instant_us := 0 |} (Responds 201)).1
       "controller" "deploy.yml" "web" "install pkg" false false
       {| _host := "h1"; _task := "install pkg"; _result := [] |}
       {| processed := {[ "h1" := 1%Z ]}; ok := ∅; failures := ∅; dark := ∅;
          changed := ∅; skipped := ∅; rescued := ∅; ignored := ∅ |}
       default_options
       {| isoformat := "2024-05-01T10:00:42"; strftime_YmdHMS := "20240501100042";
          instant_us := 42000000 |} (Responds 201) _)))))))))))).
  by repeat split.
Defined.
